(** * Danish energy analytics: extraction, warehouse loading and the
    hourly merge, embedded from the Python sources.

    Part I gives the definitions, one module per source file; Part II the
    theorems.  A numeric column whose value a property reads (a division
    by zero, NaN, the mean of an hour, an RMSE) is held as primitive
    binary64 floats; where only the keys of the rows, the order of the
    values or whether a value is missing matter, a column is held as exact
    rationals, with [None] standing for pandas' NaN / SQL's NULL. *)

From Stdlib Require Import ZArith QArith Qround Lqa Floats String List Sorted Lia.
From stdpp Require Import gmap strings list pretty.

Local Open Scope Z_scope.

(* ===================================================================== *)
(** * Part I - definitions                                                *)
(* ===================================================================== *)

(** ** Outcome of a Python call: a returned value or a raised exception. *)

Inductive exn : Type :=
| AttributeError            (* attribute access on None *)
| TypeError                 (* subscripting None *)
| DatabaseError (msg : string)
| ConnectionError           (* requests: no response at all *)
| HTTPError (status_code : Z)
| JSONDecodeError.

Inductive result (A : Type) : Type :=
| Ok (a : A)
| Raise (e : exn).
Arguments Ok {A} a.
Arguments Raise {A} e.

Definition returned {A} (r : result A) : Prop :=
  match r with Ok _ => True | Raise _ => False end.

(** A method body: a computation over the state [S] it can change, which
    returns or raises. *)
Module Py.

Definition M (S A : Type) : Type := S -> result A * S.

Definition ret {S A} (a : A) : M S A := fun s => (Ok a, s).
Definition raise {S A} (e : exn) : M S A := fun s => (Raise e, s).
Definition bind {S A B} (m : M S A) (f : A -> M S B) : M S B :=
  fun s => match m s with
           | (Ok a, s') => f a s'
           | (Raise e, s') => (Raise e, s')
           end.

(** [try: body / except Exception as e: handler e] *)
Definition try_except {S A} (body : M S A) (handler : exn -> M S A) : M S A :=
  fun s => match body s with
           | (Ok a, s') => (Ok a, s')
           | (Raise e, s') => handler e s'
           end.

(** [os.path.join(dir, name)] for a relative [name]. *)
Definition path_join (dir name : string) : string :=
  if decide (dir = ""%string) then name
  else if decide (String.substring (String.length dir - 1) 1 dir = "/"%string)
       then (dir ++ name)%string
       else (dir ++ "/" ++ name)%string.

End Py.

Declare Scope py_scope.
Delimit Scope py_scope with py.
Notation "x <- m ;; k" := (Py.bind m (fun x => k))
  (at level 100, m at next level, right associativity) : py_scope.
Notation "m ;;; k" := (Py.bind m (fun _ => k))
  (at level 100, right associativity) : py_scope.

(* --------------------------------------------------------------------- *)
(** ** ml_models: the derived renewable percentage (binary64 columns)     *)
(* --------------------------------------------------------------------- *)

Module Features.
Local Open Scope float_scope.

(** [Series.fillna(v)]: NaN entries become [v], every other entry (the
    infinities included) is kept. *)
Definition fillna (v x : float) : float :=
  if PrimFloat.is_nan x then v else x.

(** [Series.clip(lower, upper)]: NaN stays NaN; otherwise entries below
    [lower] become [lower] and entries above [upper] become [upper]. *)
Definition clip (lower upper x : float) : float :=
  if PrimFloat.is_nan x then x
  else let y := if lower <=? x then x else lower in
       if x <=? upper then y else upper.

(** The two columns of a merged row that the energy features read, as
    the binary64 numbers pandas holds. *)
Record energy_row : Type := {
  total_renewable_mwh : float;
  consumption_mwh : float
}.

(** danish_energy_ml_pipeline.py, [_engineer_features]:
    [(df['total_renewable_mwh'] / df['consumption_mwh'] * 100).fillna(0)]. *)
Definition renewable_percentage (r : energy_row) : float :=
  fillna 0 (total_renewable_mwh r / consumption_mwh r * 100).

(** [(df['total_renewable_mwh'] / (df['total_renewable_mwh'] + 1000)).fillna(0)] *)
Definition renewable_intensity (r : energy_row) : float :=
  fillna 0 (total_renewable_mwh r / (total_renewable_mwh r + 1000)).

(** simplified_ml_pipeline.py, [create_demo_dataset]:
    [(renewable_energy / consumption * 100).clip(0, 100)]. *)
Definition demo_renewable_percentage (renewable_energy consumption : float) : float :=
  clip 0 100 (renewable_energy / consumption * 100).

(** danish_energy_ml_pipeline.py, [prepare_ml_datasets]:
    [pd.cut(renewable_percentage, bins=[0, 25, 50, 75, 100],
            labels=['Low', 'Medium', 'High', 'Very High'])].
    The bins are closed on the right and the lowest edge is not included:
    (0, 25], (25, 50], (50, 75], (75, 100]; a value in no bin, and NaN,
    get no label (NaN). *)
Inductive renewable_label : Type := Low | Medium | High | Very_High.

Definition cut (x : float) : option renewable_label :=
  if PrimFloat.is_nan x then None
  else if x <=? 0 then None
  else if x <=? 25 then Some Low
  else if x <=? 50 then Some Medium
  else if x <=? 75 then Some High
  else if x <=? 100 then Some Very_High
  else None.

Definition renewable_class (r : energy_row) : option renewable_label :=
  cut (renewable_percentage r).

End Features.

(* --------------------------------------------------------------------- *)
(** ** Frames: the pandas operations the pipelines use                    *)
(* --------------------------------------------------------------------- *)

Module Frame.

(** A numeric cell in exact arithmetic; [None] is NaN (a missing value). *)
Abbreviation cell := (option Q).

(** The columns every stream is grouped and joined on: the timestamp
    (seconds since the epoch, UTC) and the price-area code. *)
Definition gkey : Type := Z * string.

Definition gkey_leb (a b : gkey) : bool :=
  if decide (a.1 = b.1) then String.leb a.2 b.2 else a.1 <? b.1.

(** [x < y] on cells that hold a value. *)
Definition Qltb (x y : Q) : bool := negb (Qle_bool y x).

(** [Series.dt.floor('H')] *)
Definition floor_H (t : Z) : Z := t / 3600 * 3600.

Definition dropna (vs : list cell) : list Q := omap id vs.

Definition Qsum (xs : list Q) : Q := fold_left Qplus xs 0%Q.

(** The 'mean' aggregation: NaN cells are skipped, and a group holding
    only NaN cells has a NaN mean. *)
Definition mean (vs : list cell) : cell :=
  match dropna vs with
  | [] => None
  | xs => Some (Qsum xs / inject_Z (Z.of_nat (length xs)))%Q
  end.

(** [DataFrame.sum(axis=1)]: NaN cells count as nothing, so the sum of a
    row is never NaN. *)
Definition row_sum (vs : list cell) : Q := Qsum (dropna vs).

(** Grouping.  [add_to_group] appends a sample to the group of its key, or
    opens a group at the end for a key seen for the first time. *)
Fixpoint add_to_group {V} (k : gkey) (v : V) (g : list (gkey * list V))
  : list (gkey * list V) :=
  match g with
  | [] => [(k, [v])]
  | (k', vs) :: g' =>
      if decide (k = k') then (k', vs ++ [v]) :: g'
      else (k', vs) :: add_to_group k v g'
  end.



Definition factorize {V} (rows : list (gkey * V)) : list (gkey * list V) :=
  fold_left (fun g kv => add_to_group kv.1 kv.2 g) rows [].

Fixpoint insert_sorted {A} (leb : A -> A -> bool) (x : A) (l : list A) : list A :=
  match l with
  | [] => [x]
  | y :: l' => if leb x y then x :: l else y :: insert_sorted leb x l'
  end.

Definition sort_by {A} (leb : A -> A -> bool) (l : list A) : list A :=
  fold_right (insert_sorted leb) [] l.

(** [df.groupby(keys)]: one group per key that occurs (no group for a key
    that does not), groups ordered by key ([sort=True]).  The key columns
    hold a value in every row here, so no row is dropped for a missing
    key. *)
Definition groupby {V} (rows : list (gkey * V)) : list (gkey * list V) :=
  sort_by (fun a b => gkey_leb a.1 b.1) (factorize rows).

(** [left.merge(right, on=keys, how='inner')]: every pair of a left and a
    right row with equal keys, in the order of the left rows. *)
Definition merge_inner {A B C} (key_l : A -> gkey) (key_r : B -> gkey)
    (mk : A -> B -> C) (left : list A) (right : list B) : list C :=
  flat_map (fun a =>
    List.map (mk a) (List.filter (fun b => bool_decide (key_l a = key_r b)) right)) left.

(** A stream holds key [k] when one of its rows carries it. *)
Definition present_in {A} (key : A -> gkey) (k : gkey) (stream : list A) : Prop :=
  exists a, In a stream /\ key a = k.

End Frame.

(* --------------------------------------------------------------------- *)
(** ** ml_models/danish_energy_ml_pipeline.py: [_create_merged_dataset]   *)
(* --------------------------------------------------------------------- *)

Module MLPipeline.
Import Frame.

(** co2_emissions_raw.csv after [_prepare_datetime_features]. *)
Record co2_record : Type := {
  Minutes5UTC : Z;
  co2_PriceArea : string;
  CO2Emission : cell
}.

(** renewable_energy_raw.csv *)
Record renewable_record : Type := {
  ren_HourUTC : Z;
  ren_PriceArea : string;
  OffshoreWindLt100MW_MWh : cell;
  OffshoreWindGe100MW_MWh : cell;
  OnshoreWindLt50kW_MWh : cell;
  OnshoreWindGe50kW_MWh : cell;
  SolarPowerLt10kW_MWh : cell;
  SolarPowerGe10Lt40kW_MWh : cell;
  SolarPowerGe40kW_MWh : cell;
  HydroPowerMWh : cell;
  GrossConsumptionMWh : cell
}.

(** electricity_prices_raw.csv *)
Record price_record : Type := {
  price_HourUTC : Z;
  price_PriceArea : string;
  SpotPriceDKK : cell;
  SpotPriceEUR : cell
}.

(** A row of [co2_agg]. *)
Record co2_hourly : Type := {
  co2_datetime : Z;
  co2_area : string;
  co2_emission : cell
}.

(** A row of [merged]. *)
Record merged_row : Type := {
  datetime : Z;
  PriceArea : string;
  m_co2_emission : cell;
  m_total_renewable_mwh : Q;
  m_spot_price_eur : cell;
  m_consumption_mwh : cell
}.

Definition co2_key (r : co2_record) : gkey := (floor_H (Minutes5UTC r), co2_PriceArea r).
Definition co2_hourly_key (r : co2_hourly) : gkey := (co2_datetime r, co2_area r).
Definition ren_key (r : renewable_record) : gkey := (ren_HourUTC r, ren_PriceArea r).
Definition price_key (r : price_record) : gkey := (price_HourUTC r, price_PriceArea r).
Definition merged_key (r : merged_row) : gkey := (datetime r, PriceArea r).

(** "Aggregate CO2 data to hourly":
    [co2_hourly.groupby(['hour', 'PriceArea']).agg({'CO2Emission': 'mean'})]. *)
Definition co2_agg (co2_data : list co2_record) : list co2_hourly :=
  List.map (fun g => {| co2_datetime := g.1.1; co2_area := g.1.2; co2_emission := mean g.2 |})
           (groupby (List.map (fun r => (co2_key r, CO2Emission r)) co2_data)).

Definition renewable_cols (r : renewable_record) : list cell :=
  [ OffshoreWindLt100MW_MWh r; OffshoreWindGe100MW_MWh r;
    OnshoreWindLt50kW_MWh r; OnshoreWindGe50kW_MWh r;
    SolarPowerLt10kW_MWh r; SolarPowerGe10Lt40kW_MWh r;
    SolarPowerGe40kW_MWh r; HydroPowerMWh r ].

Definition total_renewable_mwh (r : renewable_record) : Q := row_sum (renewable_cols r).

(** [price_data['PriceArea'].isin(['DK1', 'DK2'])] *)
Definition is_danish (area : string) : bool :=
  bool_decide (area = "DK1"%string) || bool_decide (area = "DK2"%string).

Definition price_danish (price_data : list price_record) : list price_record :=
  List.filter (fun p => is_danish (price_PriceArea p)) price_data.

(** The first merge: [co2_agg] with the renewable columns (the price
    column comes with the second merge). *)
Definition merge_renewable (c : co2_hourly) (r : renewable_record) : merged_row :=
  {| datetime := co2_datetime c; PriceArea := co2_area c;
     m_co2_emission := co2_emission c;
     m_total_renewable_mwh := total_renewable_mwh r;
     m_spot_price_eur := None;
     m_consumption_mwh := GrossConsumptionMWh r |}.

(** The second merge adds [spot_price_eur]. *)
Definition merge_price (m : merged_row) (p : price_record) : merged_row :=
  {| datetime := datetime m; PriceArea := PriceArea m;
     m_co2_emission := m_co2_emission m;
     m_total_renewable_mwh := m_total_renewable_mwh m;
     m_spot_price_eur := SpotPriceEUR p;
     m_consumption_mwh := m_consumption_mwh m |}.

Definition _create_merged_dataset (co2_data : list co2_record)
    (renewable_data : list renewable_record) (price_data : list price_record)
  : list merged_row :=
  let merged := merge_inner co2_hourly_key ren_key merge_renewable
                            (co2_agg co2_data) renewable_data in
  merge_inner merged_key price_key merge_price merged (price_danish price_data).


End MLPipeline.

(** The hourly rollup on the values pandas holds.  [co2_agg] above keeps
    the values as exact cells, which is enough where only the keys of the
    rows matter or whether a value is missing; the value of a row is a
    binary64 number, computed by the 'mean' aggregation of a groupby
    (pandas' [group_mean]): a compensated (Kahan) sum of the values that
    are not NaN, divided by their number, and NaN for a group in which
    every value is NaN. *)
Module Rollup.
Import Frame.
Local Open Scope float_scope.

Record co2_record : Type := {
  Minutes5UTC : Z;
  co2_PriceArea : string;
  CO2Emission : float
}.

Record co2_hourly : Type := {
  co2_datetime : Z;
  co2_area : string;
  co2_emission : float
}.

(** The running sum of a group, its compensation and the number of
    values seen. *)
Record kahan : Type := {
  sumx : float;
  compensation : float;
  nobs : nat
}.

(** One value of the group:
      if not isna(val):
          nobs += 1
          y = val - compensation
          t = sumx + y
          compensation = t - sumx - y
          if compensation != compensation: compensation = 0
          sumx = t *)
Definition kahan_add (st : kahan) (val : float) : kahan :=
  if PrimFloat.is_nan val then st
  else
    let y := val - compensation st in
    let t := sumx st + y in
    let c := t - sumx st - y in
    {| sumx := t;
       compensation := if PrimFloat.is_nan c then 0 else c;
       nobs := S (nobs st) |}.

(** The count (an int64 in pandas) as the double it is divided by. *)
Definition count_to_float (n : nat) : float :=
  PrimFloat.of_uint63 (Uint63.of_Z (Z.of_nat n)).

(** [out = nan if nobs == 0 else sumx / nobs] *)
Definition group_mean (values : list float) : float :=
  let st := fold_left kahan_add values {| sumx := 0; compensation := 0; nobs := O |} in
  match nobs st with
  | O => nan
  | S _ => sumx st / count_to_float (nobs st)
  end.

Definition co2_key (r : co2_record) : gkey := (floor_H (Minutes5UTC r), co2_PriceArea r).

(** [co2_hourly.groupby(['hour', 'PriceArea']).agg({'CO2Emission': 'mean'})] *)
Definition co2_agg (co2_data : list co2_record) : list co2_hourly :=
  List.map (fun g => {| co2_datetime := g.1.1; co2_area := g.1.2;
                        co2_emission := group_mean g.2 |})
           (groupby (List.map (fun r => (co2_key r, CO2Emission r)) co2_data)).



End Rollup.

(** The choice of the best model, in both pipelines. *)
Module Training.
Local Open Scope float_scope.

(** simplified_ml_pipeline.py, [train_models], "Track best model": the
    models of a task with their test RMSE, in the order of the [models]
    dict.
      best_model = None; best_score = float('inf')
      for model_name, model in models.items():
          ...
          if rmse < best_score:
              best_score = rmse; best_model = model_name *)
Definition track_best (best : option string * float) (m : string * float)
  : option string * float :=
  if m.2 <? best.2 then (Some m.1, m.2) else best.

Definition best_model (task_results : list (string * float)) : option string * float :=
  fold_left track_best task_results (None, infinity).


(** danish_energy_ml_pipeline.py, [train_co2_prediction_models] and its
    siblings: [min(results.keys(), key=lambda x: results[x]['rmse'])],
    the first key whose RMSE no later key is strictly below; a
    [ValueError] ([None] here) on an empty dict. *)
Definition best_model_name (results : list (string * float)) : option string :=
  match results with
  | [] => None
  | m :: rest => (fold_left track_best rest (Some m.1, m.2)).1
  end.

End Training.


(** [_engineer_features] of the same file: the lag and rolling columns
    and the final [dropna]. *)
Module Engineering.
Import Frame MLPipeline.

(** The columns [_engineer_features] adds that can hold NaN.  (The
    calendar, cyclical and encoded columns are computed from [datetime]
    and [PriceArea], which hold a value in every row, and the two energy
    features end in [fillna(0)].) *)
Record feature_row : Type := {
  merged : merged_row;
  co2_emission_lag1 : cell;
  co2_emission_lag24 : cell;
  total_renewable_mwh_lag1 : cell;
  total_renewable_mwh_lag24 : cell;
  spot_price_eur_lag1 : cell;
  spot_price_eur_lag24 : cell;
  co2_emission_ma24 : cell;
  co2_emission_ma168 : cell;
  total_renewable_mwh_ma24 : cell;
  total_renewable_mwh_ma168 : cell;
  spot_price_eur_ma24 : cell;
  spot_price_eur_ma168 : cell
}.

(** [df.sort_values(['PriceArea', 'datetime'])] *)
Definition area_time_leb (a b : merged_row) : bool :=
  if decide (PriceArea a = PriceArea b) then (datetime a <=? datetime b)%Z
  else String.leb (PriceArea a) (PriceArea b).

(** The rows of the group of [r] ([groupby('PriceArea')]) among the rows
    [before] it, followed by [r] itself; the latest first. *)
Definition group_history (before : list merged_row) (r : merged_row) : list merged_row :=
  r :: rev (List.filter (fun x => bool_decide (PriceArea x = PriceArea r)) before).

(** [df.groupby('PriceArea')[col].shift(k)]: the value [k] rows earlier
    in the group, NaN when the group has no such row. *)
Definition shift (k : nat) (col : merged_row -> cell) (history : list merged_row) : cell :=
  match nth_error history k with
  | Some x => col x
  | None => None
  end.

(** [df.groupby('PriceArea')[col].rolling(w, min_periods=1).mean()]: the
    mean of the values that are not NaN among the last [w] rows of the
    group, the row itself included. *)
Definition rolling_mean (w : nat) (col : merged_row -> cell) (history : list merged_row)
  : cell :=
  mean (List.map col (firstn w history)).

Definition features_of (before : list merged_row) (r : merged_row) : feature_row :=
  let h := group_history before r in
  let total := fun x => Some (m_total_renewable_mwh x) in
  {| merged := r;
     co2_emission_lag1 := shift 1 m_co2_emission h;
     co2_emission_lag24 := shift 24 m_co2_emission h;
     total_renewable_mwh_lag1 := shift 1 total h;
     total_renewable_mwh_lag24 := shift 24 total h;
     spot_price_eur_lag1 := shift 1 m_spot_price_eur h;
     spot_price_eur_lag24 := shift 24 m_spot_price_eur h;
     co2_emission_ma24 := rolling_mean 24 m_co2_emission h;
     co2_emission_ma168 := rolling_mean 168 m_co2_emission h;
     total_renewable_mwh_ma24 := rolling_mean 24 total h;
     total_renewable_mwh_ma168 := rolling_mean 168 total h;
     spot_price_eur_ma24 := rolling_mean 24 m_spot_price_eur h;
     spot_price_eur_ma168 := rolling_mean 168 m_spot_price_eur h |}.

(** The rows of a frame, each with the rows before it. *)
Fixpoint with_features (before rows : list merged_row) : list feature_row :=
  match rows with
  | [] => []
  | r :: rows' => features_of before r :: with_features (before ++ [r]) rows'
  end.

(** The columns of a row that can hold NaN. *)
Definition nullable_columns (f : feature_row) : list cell :=
  [ m_co2_emission (merged f); m_spot_price_eur (merged f);
    m_consumption_mwh (merged f);
    co2_emission_lag1 f; co2_emission_lag24 f;
    total_renewable_mwh_lag1 f; total_renewable_mwh_lag24 f;
    spot_price_eur_lag1 f; spot_price_eur_lag24 f;
    co2_emission_ma24 f; co2_emission_ma168 f;
    total_renewable_mwh_ma24 f; total_renewable_mwh_ma168 f;
    spot_price_eur_ma24 f; spot_price_eur_ma168 f ].

(** [df.dropna()]: a row is kept when none of its columns is NaN. *)
Definition has_nan (f : feature_row) : bool :=
  negb (forallb (fun c : cell => bool_decide (is_Some c)) (nullable_columns f)).

Definition _engineer_features (merged_data : list merged_row) : list feature_row :=
  let df := sort_by area_time_leb merged_data in
  List.filter (fun f => negb (has_nan f)) (with_features [] df).

(** The rows of one price area. *)
Definition rows_of_area (area : string) (df : list merged_row) : list merged_row :=
  List.filter (fun x => bool_decide (PriceArea x = area)) df.

(** [_generate_business_insights], "Data quality insights", on the frame
    [_engineer_features] has left in [self.merged_data]:
    [(1 - merged_data.isnull().sum().sum() / merged_data.size) * 100].
    The frame has 36 columns: 6 of the merge, 9 calendar columns, 6
    cyclical ones, the 2 energy features, the encoded price area, 6 lags
    and 6 rolling means.  A frame without rows has size 0, and the
    quotient is NaN. *)
Definition isnull_sum (df : list feature_row) : nat :=
  list_sum (List.map (fun f => length (List.filter (fun c : cell => bool_decide (c = None))
                                         (nullable_columns f))) df).

Definition frame_size (df : list feature_row) : nat := (length df * 36)%nat.

Definition data_completeness (df : list feature_row) : cell :=
  match frame_size df with
  | O => None
  | S _ => Some ((1 - inject_Z (Z.of_nat (isnull_sum df)) / inject_Z (Z.of_nat (frame_size df)))
                 * 100)%Q
  end.

End Engineering.


(* --------------------------------------------------------------------- *)
(** ** ml_models/advanced_ml_pipeline.py                                  *)
(* --------------------------------------------------------------------- *)

Module Advanced.
Import Frame.

(** A row of the frame [create_time_series_features] is given: the
    columns it reads, and the other columns, which it only carries. *)
Record data_row : Type := {
  co2_emission : cell;
  renewable_energy : cell;
  electricity_price : cell;
  renewable_percentage : cell;
  consumption : cell;
  hour : Z;
  other_columns : list cell
}.

(** A row of the new frame.  Each of the six kinds of column is added
    for the three targets, in the order of [targets]. *)
Record advanced_row : Type := {
  data : data_row;
  lag1 : list cell;
  lag24 : list cell;
  lag168 : list cell;
  ma3 : list cell;
  ma24 : list cell;
  std24 : list cell;
  renewable_price_interaction : cell;
  consumption_hour_interaction : cell
}.

Definition targets : list (data_row -> cell) :=
  [co2_emission; renewable_energy; electricity_price].

(** [df[col].shift(k)]: the value [k] rows earlier in the frame (the
    frame is not grouped by price area here). [history] holds the row and
    the rows before it, the latest first. *)
Definition frame_shift (k : nat) (col : data_row -> cell) (history : list data_row) : cell :=
  match nth_error history k with
  | Some x => col x
  | None => None
  end.

(** [df[col].rolling(w, min_periods=1).mean()] *)
Definition frame_rolling_mean (w : nat) (col : data_row -> cell) (history : list data_row) : cell :=
  mean (List.map col (firstn w history)).

(** [Series.fillna(v)] on a column of cells. *)
Definition fillna_cell (v : Q) (c : cell) : cell :=
  match c with Some x => Some x | None => Some v end.

Definition mul (a b : cell) : cell :=
  match a, b with Some x, Some y => Some (x * y)%Q | _, _ => None end.

Section Features.

(** The sample standard deviation of the values of a window that are not
    NaN, as pandas computes it (NaN for fewer than two values). *)
Variable std : list Q -> cell.

Definition rolling_std (w : nat) (col : data_row -> cell) (history : list data_row) : cell :=
  std (dropna (List.map col (firstn w history))).

Definition time_series_features_of (before : list data_row) (r : data_row) : advanced_row :=
  let h := r :: rev before in
  {| data := r;
     lag1 := List.map (fun col => frame_shift 1 col h) targets;
     lag24 := List.map (fun col => frame_shift 24 col h) targets;
     lag168 := List.map (fun col => frame_shift 168 col h) targets;
     ma3 := List.map (fun col => frame_rolling_mean 3 col h) targets;
     ma24 := List.map (fun col => frame_rolling_mean 24 col h) targets;
     std24 := List.map (fun col => fillna_cell 0 (rolling_std 24 col h)) targets;
     renewable_price_interaction := mul (renewable_percentage r) (electricity_price r);
     consumption_hour_interaction := mul (consumption r) (Some (inject_Z (hour r))) |}.

Fixpoint with_time_series_features (before rows : list data_row) : list advanced_row :=
  match rows with
  | [] => []
  | r :: rows' => time_series_features_of before r :: with_time_series_features (before ++ [r]) rows'
  end.

(** The columns of a row of the new frame. *)
Definition columns (f : advanced_row) : list cell :=
  [ co2_emission (data f); renewable_energy (data f); electricity_price (data f);
    renewable_percentage (data f); consumption (data f) ]
  ++ other_columns (data f)
  ++ lag1 f ++ lag24 f ++ lag168 f ++ ma3 f ++ ma24 f ++ std24 f
  ++ [ renewable_price_interaction f; consumption_hour_interaction f ].

(** [df.dropna()] *)
Definition no_nan (f : advanced_row) : bool :=
  forallb (fun c : cell => bool_decide (is_Some c)) (columns f).

Definition create_time_series_features (df : list data_row) : list advanced_row :=
  List.filter no_nan (with_time_series_features [] df).

End Features.

End Advanced.


(* --------------------------------------------------------------------- *)
(** ** data_ingestion/extract_energy_data.py                              *)
(* --------------------------------------------------------------------- *)

Module Extraction.
Import Py.
Local Open Scope string_scope.

(** A record of the API: a flat object, column name to text. *)
Definition record : Type := list (string * string).
Definition DataFrame : Type := list record.

Record request : Type := {
  url : string;
  params : list (string * string);
  timeout : Z
}.

(** The decoded body of a response, as far as the extractor looks into it:
    an object with its optional 'result' and 'records' entries, some other
    JSON value, or text that is not JSON. *)
Inductive json_body : Type :=
| NotJson
| JsonOther
| JsonObject (result : option (list record)) (records : option (list record)).

Inductive http_outcome : Type :=
| NoResponse
| Response (status_code : Z) (body : json_body).

Record summary : Type := {
  extraction_date : string;
  date_range : string;
  n_electricity_balance : nat;
  n_co2_emissions : nat;
  n_renewable_energy : nat;
  n_electricity_prices : nat;
  total_records : nat
}.

Inductive file_content : Type :=
| DatasetListFile (data : json_body)
| CsvFile (rows : DataFrame)
| SummaryFile (s : summary).

(** A record of the module's logger.  [logging.basicConfig] gives the
    root logger a [FileHandler('data_extraction.log')] and a console
    handler at level INFO, so every [logger.info], [logger.warning] and
    [logger.error] of the extractor appends a line to that file: the
    time, the level and the message.  A message is kept by what it
    reports:
    - [Retrieved_datasets n]: "Retrieved {n} datasets";
    - [Error_fetching_dataset_list e]: "Error fetching dataset list: {e}";
    - [Extracting d start end]: "Extracting ... data from {start} to
      {end}", in the method that asks for dataset [d];
    - [Saved n file]: "Saved {n} ... records to {file}";
    - [No_data_found d]: "No ... data found";
    - [Error_extracting d e]: "Error extracting ... data: {e}";
    - [Starting_full_extraction]: "Starting full data extraction process";
    - [Extraction_completed n]: "Data extraction completed. Total
      records: {n}". *)
Inductive levelname : Type := INFO | WARNING | ERROR.

Inductive message : Type :=
| Retrieved_datasets (n : nat)
| Error_fetching_dataset_list (e : exn)
| Extracting (dataset start_date end_date : string)
| Saved (n : nat) (output_file : string)
| No_data_found (dataset : string)
| Error_extracting (dataset : string) (e : exn)
| Starting_full_extraction
| Extraction_completed (total_records : nat).

Definition log_file : string := "data_extraction.log".

(** What the extractor can change: the requests sent so far, the files
    of the file system other than the log file, and the lines the log
    file has received. *)
Record world : Type := {
  requests : list request;
  files : gmap string file_content;
  log : list (levelname * message)
}.

Abbreviation M := (Py.M world).

Section Extractor.

(** The upstream service: what the [n]-th request of the run gets back. *)
Variable server : nat -> request -> http_outcome.
(** [datetime.now().isoformat()] at the time the summary is built. *)
Variable now : string.
Variable output_dir : string.

Definition base_api_url : string := "https://api.energidataservice.dk".

(** [self.session.get(url, params=params, timeout=t)] followed by
    [response.raise_for_status()]. *)
Definition session_get (req : request) : M json_body :=
  fun w =>
    let w' := {| requests := requests w ++ [req]; files := files w; log := log w |} in
    match server (length (requests w)) req with
    | NoResponse => (Raise ConnectionError, w')
    | Response code body =>
        if ((400 <=? code) && (code <? 600))%Z then (Raise (HTTPError code), w')
        else (Ok body, w')
    end.

(** [response.json()] and then [data.get(key, [])]. *)
Definition json_get (k : json_body -> option (option (list record))) (body : json_body)
  : M (list record) :=
  match k body with
  | None => match body with
            | JsonOther => raise AttributeError
            | _ => raise JSONDecodeError
            end
  | Some entry => ret (default [] entry)
  end.

Definition get_records (body : json_body) : option (option (list record)) :=
  match body with JsonObject _ records => Some records | _ => None end.

Definition get_result (body : json_body) : option (option (list record)) :=
  match body with JsonObject result _ => Some result | _ => None end.

Definition write_file (name : string) (c : file_content) : M unit :=
  fun w => (Ok tt, {| requests := requests w;
                      files := <[path_join output_dir name := c]> (files w);
                      log := log w |}).

(** [logger.info(...)], [logger.warning(...)], [logger.error(...)] *)
Definition logger (l : levelname) (m : message) : M unit :=
  fun w => (Ok tt, {| requests := requests w; files := files w;
                      log := log w ++ [(l, m)] |}).

Definition dataset_request (dataset start_date end_date : string) : request :=
  {| url := base_api_url ++ "/dataset/" ++ dataset;
     params := [("start", start_date); ("end", end_date); ("format", "json")];
     timeout := 60 |}.

Definition dataset_list_request : request :=
  {| url := base_api_url ++ "/meta/dataset"; params := []; timeout := 30 |}.

Local Open Scope py_scope.

Definition get_dataset_list : M (list record) :=
  try_except
    (data <- session_get dataset_list_request ;;
     result <- json_get get_result data ;;
     logger INFO (Retrieved_datasets (length result)) ;;;
     write_file "available_datasets.json" (DatasetListFile data) ;;;
     ret result)
    (fun e => logger ERROR (Error_fetching_dataset_list e) ;;; ret []).

(** The body shared by the four [extract_*] methods, which differ in the
    dataset they ask for, the file they write and the wording of their
    log messages. *)
Definition extract_dataset (dataset file_name start_date end_date : string) : M DataFrame :=
  try_except
    (logger INFO (Extracting dataset start_date end_date) ;;;
     data <- session_get (dataset_request dataset start_date end_date) ;;
     records <- json_get get_records data ;;
     match records with
     | _ :: _ =>
         write_file file_name (CsvFile records) ;;;
         logger INFO (Saved (length records) (path_join output_dir file_name)) ;;;
         ret records
     | [] => logger WARNING (No_data_found dataset) ;;; ret []
     end)
    (fun e => logger ERROR (Error_extracting dataset e) ;;; ret []).

Definition extract_electricity_data := extract_dataset "ElectricityBalance" "electricity_balance_raw.csv".
Definition extract_co2_emissions_data := extract_dataset "CO2Emis" "co2_emissions_raw.csv".
Definition extract_renewable_energy_data :=
  extract_dataset "ProductionConsumptionSettlement" "renewable_energy_raw.csv".
Definition extract_electricity_prices := extract_dataset "Elspotprices" "electricity_prices_raw.csv".

Definition run_full_extraction (start_date end_date : string) : M summary :=
  logger INFO Starting_full_extraction ;;;
  datasets <- get_dataset_list ;;
  electricity_df <- extract_electricity_data start_date end_date ;;
  co2_df <- extract_co2_emissions_data start_date end_date ;;
  renewable_df <- extract_renewable_energy_data start_date end_date ;;
  prices_df <- extract_electricity_prices start_date end_date ;;
  let s := {| extraction_date := now;
              date_range := start_date ++ " to " ++ end_date;
              n_electricity_balance := length electricity_df;
              n_co2_emissions := length co2_df;
              n_renewable_energy := length renewable_df;
              n_electricity_prices := length prices_df;
              total_records := (length electricity_df + length co2_df
                                + length renewable_df + length prices_df)%nat |} in
  write_file "extraction_summary.json" (SummaryFile s) ;;;
  logger INFO (Extraction_completed (total_records s)) ;;;
  ret s.


(** The [n]-th request of the run fails: no response, an HTTP error
    status, or a body without a usable object. *)
Definition fetch_fails (n : nat) (req : request) : Prop :=
  match server n req with
  | NoResponse => True
  | Response code body =>
      ((400 <=? code) && (code <? 600))%Z = true \/ get_records body = None
  end.

(** The status codes [raise_for_status] lets through. *)
Definition status_ok (code : Z) : Prop := ((400 <=? code) && (code <? 600))%Z = false.

(** The files a full run may write. *)
Definition run_outputs : list string :=
  List.map (path_join output_dir)
    [ "available_datasets.json"; "electricity_balance_raw.csv"; "co2_emissions_raw.csv";
      "renewable_energy_raw.csv"; "electricity_prices_raw.csv"; "extraction_summary.json" ].

End Extractor.


End Extraction.

(* --------------------------------------------------------------------- *)
(** ** data_warehouse/load_data_warehouse.py                              *)
(* --------------------------------------------------------------------- *)

Module Warehouse.
Import Py.
Local Open Scope string_scope.

(** A psycopg2 connection: the database as committed, and as the open
    transaction sees it. *)
Record connection (DB : Type) : Type := {
  committed : DB;
  pending : DB
}.
Arguments committed {DB} c.
Arguments pending {DB} c.

(** What a statement does when run on the database the transaction sees:
    it fails, leaving the transaction in some state [dirty], or it goes
    through with a new state and the row [fetchone()] gives back. *)
Inductive executed (DB V : Type) : Type :=
| Failed (msg : string) (dirty : DB)
| Fetched (db' : DB) (row : option V).
Arguments Failed {DB V} msg dirty.
Arguments Fetched {DB V} db' row.

Section Loader.
Context {DB : Type}.

(** [SELECT {function_name}(%s)] on the server. *)
Variable sql_function : string -> string -> DB -> executed DB Z.
(** [SELECT core.run_etl_pipeline()] *)
Variable etl_function : DB -> executed DB string.
(** The server refusing to commit the state it is asked to commit, with
    its message; [None] when the commit goes through. *)
Variable commit_error : DB -> option string.

(** [self.conn]: [None] until [connect] has run. *)
Definition conn_state : Type := option (connection DB).

Definition cursor : M conn_state unit :=
  fun s => match s with
           | None => (Raise AttributeError, s)
           | Some _ => (Ok tt, s)
           end.

Definition execute {V} (stmt : DB -> executed DB V) : M conn_state (option V) :=
  fun s => match s with
           | None => (Raise AttributeError, s)
           | Some c =>
               match stmt (pending c) with
               | Failed msg dirty =>
                   (Raise (DatabaseError msg),
                    Some {| committed := committed c; pending := dirty |})
               | Fetched db' row =>
                   (Ok row, Some {| committed := committed c; pending := db' |})
               end
           end.

(** [cursor.fetchone()[0]] *)
Definition fetchone_0 {V} (row : option V) : M conn_state V :=
  match row with
  | None => raise TypeError
  | Some v => ret v
  end.

Definition commit : M conn_state unit :=
  fun s => match s with
           | None => (Raise AttributeError, s)
           | Some c =>
               match commit_error (pending c) with
               | Some msg => (Raise (DatabaseError msg), s)
               | None => (Ok tt, Some {| committed := pending c; pending := pending c |})
               end
           end.

(** [if self.conn: self.conn.rollback()] *)
Definition rollback_if_conn : M conn_state unit :=
  fun s => match s with
           | None => (Ok tt, None)
           | Some c => (Ok tt, Some {| committed := committed c; pending := committed c |})
           end.

(** The loader after a rollback, and after a commit of [db]. *)
Definition rolled_back (c : connection DB) : conn_state :=
  Some {| committed := committed c; pending := committed c |}.

Definition committed_as (db : DB) : conn_state :=
  Some {| committed := db; pending := db |}.

(** A [SELECT] that only reads: the value comes from the state the
    transaction sees. *)
Definition query {V} (q : DB -> V) : M conn_state V :=
  fun s => match s with
           | None => (Raise AttributeError, s)
           | Some c => (Ok (q (pending c)), s)
           end.

Local Open Scope py_scope.

Definition load_csv_to_raw_table (csv_file_path table_name function_name : string)
  : M conn_state Z :=
  try_except
    (cursor ;;;
     row <- execute (sql_function function_name csv_file_path) ;;
     rows_loaded <- fetchone_0 row ;;
     commit ;;;
     ret rows_loaded)
    (fun e => rollback_if_conn ;;; raise e).

Definition run_etl_pipeline : M conn_state string :=
  try_except
    (cursor ;;;
     row <- execute etl_function ;;
     result <- fetchone_0 row ;;
     commit ;;;
     ret result)
    (fun e => rollback_if_conn ;;; raise e).

(** The loading part of [main]: the three CSV files that exist are loaded
    in turn, then the ETL runs. *)
Variable file_exists : string -> bool.
Variable data_dir : string.

Definition csv_files : list (string * (string * string)) :=
  [ ("co2_emissions_raw.csv", ("raw.co2_emissions", "raw.load_co2_emissions_from_csv"));
    ("renewable_energy_raw.csv", ("raw.renewable_energy", "raw.load_renewable_energy_from_csv"));
    ("electricity_prices_raw.csv",
       ("raw.electricity_prices", "raw.load_electricity_prices_from_csv")) ].

Fixpoint load_raw_files (jobs : list (string * (string * string))) (total_raw_rows : Z)
  : M conn_state Z :=
  match jobs with
  | [] => ret total_raw_rows
  | (csv_file, (table_name, function_name)) :: jobs' =>
      let csv_path := path_join data_dir csv_file in
      if file_exists csv_path then
        rows_loaded <- load_csv_to_raw_table csv_path table_name function_name ;;
        load_raw_files jobs' (total_raw_rows + rows_loaded)
      else load_raw_files jobs' total_raw_rows
  end.

Definition load_and_transform : M conn_state (Z * string) :=
  total_raw_rows <- load_raw_files csv_files 0 ;;
  etl_result <- run_etl_pipeline ;;
  ret (total_raw_rows, etl_result).

(** The loader holds a connection with no uncommitted change. *)
Definition clean (s : conn_state) : Prop := exists db, s = committed_as db.

End Loader.

End Warehouse.

(* --------------------------------------------------------------------- *)
(** ** The warehouse tables and the quality checks                        *)
(* --------------------------------------------------------------------- *)

Module Store.
Import Py Warehouse Frame.
Local Open Scope string_scope.

(** Modelled from the spec: the table definitions (the SQL schema is not
    among the sources).  A fact table has one row per
    (date_key, time_key, price_area_key), its primary key; a raw staging
    row carries its timestamp, its price-area code and the other columns
    as text.  Measures are nullable. *)
Definition fact_key : Type := Z * Z * Z.

Record co2_fact : Type := {
  co2_emission_g_kwh : cell
}.

Record production_fact : Type := {
  total_production_mwh : cell;
  total_renewable_mwh : cell;
  renewable_percentage : cell;
  gross_consumption_mwh : cell
}.

Record price_fact : Type := {
  spot_price_eur : cell;
  is_negative_price : bool;
  is_price_spike : bool
}.

Record raw_row : Type := {
  raw_timestamp : Z;
  raw_price_area : string;
  raw_columns : list (string * string)
}.

Record database : Type := {
  raw_co2_emissions : list raw_row;
  raw_renewable_energy : list raw_row;
  raw_electricity_prices : list raw_row;
  dim_date : gset Z;
  fact_co2_emissions : gmap fact_key co2_fact;
  fact_energy_production : gmap fact_key production_fact;
  fact_electricity_prices : gmap fact_key price_fact
}.

Definition date_key (k : fact_key) : Z := k.1.1.

(** [SELECT COUNT( * ) FROM table WHERE condition] *)
Definition count_where {V} (condition : fact_key -> V -> bool) (table : gmap fact_key V) : nat :=
  length (List.filter (fun kv => condition kv.1 kv.2) (map_to_list table)).

(** A comparison with NULL is not true, so a NULL measure passes every
    range condition. *)
Definition sql_lt (x : cell) (bound : Q) : bool :=
  match x with Some v => Qltb v bound | None => false end.
Definition sql_gt (x : cell) (bound : Q) : bool :=
  match x with Some v => Qltb bound v | None => false end.

(** [WHERE co2_emission_g_kwh IS NULL] *)
Definition null_co2_values (db : database) : nat :=
  count_where (fun _ f => bool_decide (co2_emission_g_kwh f = None)) (fact_co2_emissions db).

(** [WHERE co2_emission_g_kwh < 0 OR co2_emission_g_kwh > 1000] *)
Definition invalid_co2_values (db : database) : nat :=
  count_where (fun _ f => sql_lt (co2_emission_g_kwh f) 0 || sql_gt (co2_emission_g_kwh f) 1000)
              (fact_co2_emissions db).

(** [WHERE renewable_percentage < 0] *)
Definition negative_renewable (db : database) : nat :=
  count_where (fun _ f => sql_lt (renewable_percentage f) 0) (fact_energy_production db).

(** [WHERE spot_price_eur < -1000 OR spot_price_eur > 5000] *)
Definition extreme_prices (db : database) : nat :=
  count_where (fun _ f => sql_lt (spot_price_eur f) (-1000) || sql_gt (spot_price_eur f) 5000)
              (fact_electricity_prices db).

(** [LEFT JOIN core.dim_date d ON f.date_key = d.date_key WHERE d.date_key IS NULL] *)
Definition orphaned_co2_records (db : database) : nat :=
  count_where (fun k _ => bool_decide (date_key k ∉ dim_date db)) (fact_co2_emissions db).

Local Open Scope py_scope.

Definition validate_data_quality : M (conn_state (DB := database)) (list string) :=
  try_except
    (cursor ;;;
     null_co2 <- query null_co2_values ;;
     invalid_co2 <- query invalid_co2_values ;;
     negative_renewable <- query negative_renewable ;;
     extreme_prices <- query extreme_prices ;;
     orphaned_co2 <- query orphaned_co2_records ;;
     ret [ "Null CO2 values: " ++ pretty null_co2;
           "Invalid CO2 values (outside 0-1000): " ++ pretty invalid_co2;
           "Negative renewable percentages: " ++ pretty negative_renewable;
           "Extreme price values: " ++ pretty extreme_prices;
           "Orphaned CO2 records (missing date): " ++ pretty orphaned_co2 ])
    (fun e => raise e).

(** The report the checks give on a database. *)
Definition quality_report (db : database) : list string :=
  [ "Null CO2 values: " ++ pretty (null_co2_values db);
    "Invalid CO2 values (outside 0-1000): " ++ pretty (invalid_co2_values db);
    "Negative renewable percentages: " ++ pretty (negative_renewable db);
    "Extreme price values: " ++ pretty (extreme_prices db);
    "Orphaned CO2 records (missing date): " ++ pretty (orphaned_co2_records db) ].

(** The count of a check in the words of the specification, for
    comparison: the number of facts of the table that violate it. *)
Definition violations {V} (violates : fact_key * V -> Prop)
    `{!forall kv, Decision (violates kv)} (table : gmap fact_key V) : nat :=
  size (filter violates table).

#[export] Instance Qlt_dec (x y : Q) : Decision (x < y)%Q :=
  match Qlt_le_dec x y with
  | left H => left H
  | right H => right (Qle_not_lt _ _ H)
  end.

(** A measure is missing. *)
Definition is_null (x : cell) : Prop := x = None.

(** A measure holds a value outside [[lo, hi]]; a missing measure is not
    outside. *)
Definition outside (lo hi : Q) (x : cell) : Prop :=
  match x with Some v => (v < lo)%Q \/ (hi < v)%Q | None => False end.

(** A measure holds a value below [lo]. *)
Definition below (lo : Q) (x : cell) : Prop :=
  match x with Some v => (v < lo)%Q | None => False end.

#[export] Instance outside_dec lo hi x : Decision (outside lo hi x).
Proof. destruct x; simpl; apply _. Defined.

#[export] Instance below_dec lo x : Decision (below lo x).
Proof. destruct x; simpl; apply _. Defined.

End Store.

(* --------------------------------------------------------------------- *)
(** ** The SQL functions the loader calls                                 *)
(* --------------------------------------------------------------------- *)

Module Sql.
Import Py Warehouse Store.
Local Open Scope string_scope.

(** The natural key of a raw staging row. *)
Definition raw_key (r : raw_row) : Z * string := (raw_timestamp r, raw_price_area r).

(** Modelled from the spec: the body of [raw.load_co2_emissions_from_csv]
    and its two siblings, which is not among the sources.  Section 4.2:
    the records are persisted to raw staging, "skipping any record whose
    (timestamp, price-area) key already exists in staging for that
    dataset", and the count of newly persisted records is reported. *)
Fixpoint persist_new (records staging : list raw_row) : nat * list raw_row :=
  match records with
  | [] => (O, staging)
  | r :: records' =>
      if decide (raw_key r ∈ List.map raw_key staging) then persist_new records' staging
      else let (n, staging') := persist_new records' (staging ++ [r]) in (S n, staging')
  end.

(** Modelled from the spec: [upsert_facts] of section 4.4, "each row is
    written keyed by (date_key, hour_key, price_area_key)", and a row for
    a key already loaded "replaces prior values for that key rather than
    duplicating". *)
Definition upsert_facts {V} (rows : list (fact_key * V)) (table : gmap fact_key V)
  : gmap fact_key V :=
  fold_left (fun t kv => <[kv.1 := kv.2]> t) rows table.

(** The fact rows one ETL run derives from raw staging. *)
Record fact_batch : Type := {
  co2_rows : list (fact_key * co2_fact);
  production_rows : list (fact_key * production_fact);
  price_rows : list (fact_key * price_fact)
}.

Definition set_raw_co2_emissions (t : list raw_row) (db : database) : database :=
  {| raw_co2_emissions := t;
     raw_renewable_energy := raw_renewable_energy db;
     raw_electricity_prices := raw_electricity_prices db;
     dim_date := dim_date db;
     fact_co2_emissions := fact_co2_emissions db;
     fact_energy_production := fact_energy_production db;
     fact_electricity_prices := fact_electricity_prices db |}.

Definition set_raw_renewable_energy (t : list raw_row) (db : database) : database :=
  {| raw_co2_emissions := raw_co2_emissions db;
     raw_renewable_energy := t;
     raw_electricity_prices := raw_electricity_prices db;
     dim_date := dim_date db;
     fact_co2_emissions := fact_co2_emissions db;
     fact_energy_production := fact_energy_production db;
     fact_electricity_prices := fact_electricity_prices db |}.

Definition set_raw_electricity_prices (t : list raw_row) (db : database) : database :=
  {| raw_co2_emissions := raw_co2_emissions db;
     raw_renewable_energy := raw_renewable_energy db;
     raw_electricity_prices := t;
     dim_date := dim_date db;
     fact_co2_emissions := fact_co2_emissions db;
     fact_energy_production := fact_energy_production db;
     fact_electricity_prices := fact_electricity_prices db |}.

Definition upsert_batch (b : fact_batch) (db : database) : database :=
  {| raw_co2_emissions := raw_co2_emissions db;
     raw_renewable_energy := raw_renewable_energy db;
     raw_electricity_prices := raw_electricity_prices db;
     dim_date := dim_date db;
     fact_co2_emissions := upsert_facts (co2_rows b) (fact_co2_emissions db);
     fact_energy_production := upsert_facts (production_rows b) (fact_energy_production db);
     fact_electricity_prices := upsert_facts (price_rows b) (fact_electricity_prices db) |}.

Definition always_commits (db : database) : option string := None.

Section Server.

(** The CSV files the database server can read, already parsed. *)
Variable server_files : gmap string (list raw_row).
(** The conformance, rollup and join of one ETL run, as a function of the
    three raw staging tables. *)
Variable transform : list raw_row -> list raw_row -> list raw_row -> fact_batch.

(** Modelled from the spec: a load function reads the CSV file at [path]
    and persists its new records into its staging table. *)
Definition load_from_csv (table : database -> list raw_row)
    (set_table : list raw_row -> database -> database) (path : string) (db : database)
  : executed database Z :=
  match server_files !! path with
  | None => Failed "could not open file" db
  | Some records =>
      let (n, staging) := persist_new records (table db) in
      Fetched (set_table staging db) (Some (Z.of_nat n))
  end.

(** Modelled from the spec: the three load functions by name. *)
Definition sql_function (function_name path : string) (db : database)
  : executed database Z :=
  if decide (function_name = "raw.load_co2_emissions_from_csv")
  then load_from_csv raw_co2_emissions set_raw_co2_emissions path db
  else if decide (function_name = "raw.load_renewable_energy_from_csv")
  then load_from_csv raw_renewable_energy set_raw_renewable_energy path db
  else if decide (function_name = "raw.load_electricity_prices_from_csv")
  then load_from_csv raw_electricity_prices set_raw_electricity_prices path db
  else Failed "function does not exist" db.

(** Modelled from the spec: [core.run_etl_pipeline()], which is not among
    the sources: the facts derived from raw staging are upserted. *)
Definition core_run_etl_pipeline (db : database) : executed database string :=
  let b := transform (raw_co2_emissions db) (raw_renewable_energy db)
                     (raw_electricity_prices db) in
  Fetched (upsert_batch b db) (Some "ETL pipeline completed").

(** One run of the loading pipeline against this server, whose commits go
    through. *)
Definition run_pipeline (file_exists : string -> bool) (data_dir : string)
  : M (conn_state (DB := database)) (Z * string) :=
  load_and_transform sql_function core_run_etl_pipeline always_commits
    file_exists data_dir.

End Server.

(** Every raw staging table has one row per (timestamp, price area). *)
Definition staging_unique (db : database) : Prop :=
  NoDup (List.map raw_key (raw_co2_emissions db)) /\
  NoDup (List.map raw_key (raw_renewable_energy db)) /\
  NoDup (List.map raw_key (raw_electricity_prices db)).

End Sql.

(* --------------------------------------------------------------------- *)
(** ** data_ingestion/data_quality_assessment.py: high price events       *)
(* --------------------------------------------------------------------- *)

Module DataQuality.
Import Frame MLPipeline.

(** [Series.quantile(q)] with the default linear interpolation: NaN cells
    are skipped; in the sorted values the position [q * (n - 1)] is taken,
    interpolating between its two neighbours. *)
Definition quantile (q : Q) (xs : list cell) : cell :=
  let vs := sort_by Qle_bool (dropna xs) in
  match vs with
  | [] => None
  | v0 :: _ =>
      let pos := (q * inject_Z (Z.of_nat (length vs) - 1))%Q in
      let lo := Qfloor pos in
      let a := nth (Z.to_nat lo) vs v0 in
      let b := nth (Z.to_nat (lo + 1)) vs a in
      Some (a + (b - a) * (pos - inject_Z lo))%Q
  end.

(** [df['SpotPriceDKK'] > df['SpotPriceDKK'].quantile(0.95)], row by row;
    a comparison with NaN is false. *)
Definition above_quantile (df : list price_record) (r : price_record) : bool :=
  match SpotPriceDKK r, quantile (95 # 100) (List.map SpotPriceDKK df) with
  | Some p, Some t => Qltb t p
  | _, _ => false
  end.

(** "Check for extreme prices": [high_prices_dkk] in
    [analyze_electricity_prices]. *)
Definition high_prices_dkk (df : list price_record) : list price_record :=
  List.filter (above_quantile df) df.

(** The flag in the words of the specification, for comparison: the spot
    price in EUR is above [spike_multiplier] times the mean EUR price of
    the same price area over the trailing window of [window] seconds
    (which holds the row itself when [inclusive]). *)
Definition spec_rolling_baseline (window : Z) (inclusive : bool)
    (df : list price_record) (r : price_record) : cell :=
  mean (List.map SpotPriceEUR
          (List.filter (fun x =>
             bool_decide (price_PriceArea x = price_PriceArea r)
             && (price_HourUTC r - window <? price_HourUTC x)
             && (if inclusive then price_HourUTC x <=? price_HourUTC r
                 else price_HourUTC x <? price_HourUTC r)) df)).

Definition spec_is_price_spike (window : Z) (spike_multiplier : Q) (inclusive : bool)
    (df : list price_record) (r : price_record) : bool :=
  match SpotPriceEUR r, spec_rolling_baseline window inclusive df r with
  | Some p, Some baseline => Qltb (baseline * spike_multiplier) p
  | _, _ => false
  end.

(** The quantile as numpy computes it on the binary64 values of the
    column (each of them a rational).  The position and the two
    neighbours are those of [quantile]; between them numpy's [_lerp]
    rounds every operation of [a + (b - a) * gamma] (of
    [b - (b - a) * (1 - gamma)] when [gamma >= 0.5]) to binary64.  An
    [interpolation] stands for that rounded step; what is used of it is
    that its result stays between the two neighbours, as the exact
    [linear] one does. *)
Definition interpolation : Type := Q -> Q -> Q -> Q.

Definition stays_between (interpolate : interpolation) : Prop :=
  forall a b gamma, (a <= b)%Q -> (0 <= gamma)%Q -> (gamma < 1)%Q ->
                    (a <= interpolate a b gamma /\ interpolate a b gamma <= b)%Q.

Definition linear : interpolation := fun a b gamma => (a + (b - a) * gamma)%Q.

Definition quantile_with (interpolate : interpolation) (q : Q) (xs : list cell) : cell :=
  let vs := sort_by Qle_bool (dropna xs) in
  match vs with
  | [] => None
  | v0 :: _ =>
      let pos := (q * inject_Z (Z.of_nat (length vs) - 1))%Q in
      let lo := Qfloor pos in
      let a := nth (Z.to_nat lo) vs v0 in
      let b := nth (Z.to_nat (lo + 1)) vs a in
      Some (interpolate a b (pos - inject_Z lo)%Q)
  end.

(** [high_prices_dkk] with that quantile. *)
Definition high_prices_dkk_with (interpolate : interpolation) (df : list price_record)
  : list price_record :=
  List.filter (fun r => match SpotPriceDKK r,
                              quantile_with interpolate (95 # 100) (List.map SpotPriceDKK df) with
                        | Some p, Some t => Qltb t p
                        | _, _ => false
                        end) df.

(** The DKK prices of a frame that hold a value, in ascending order, and
    the position of the 0.95 quantile among them. *)
Definition sorted_prices (df : list price_record) : list Q :=
  sort_by Qle_bool (dropna (List.map SpotPriceDKK df)).

Definition quantile_position (n : nat) : nat :=
  Z.to_nat (Qfloor ((95 # 100) * inject_Z (Z.of_nat n - 1))).

(** "Check for data gaps" in [analyze_co2_emissions]:
    [df.sort_values('Minutes5UTC')['Minutes5UTC'].diff()], the difference
    of each row to the row before it (the first row has none), and the
    differences above the expected interval of 5 minutes.  The frame is
    sorted as a whole, the rows of all price areas together. *)
Fixpoint diff (ts : list Z) : list Z :=
  match ts with
  | a :: (b :: _) as rest => (b - a) :: diff rest
  | _ => []
  end.

Definition expected_interval : Z := 300.

Definition gaps (df : list co2_record) : list Z :=
  List.filter (fun d => expected_interval <? d)
              (diff (sort_by Z.leb (List.map Minutes5UTC df))).

End DataQuality.

(* --------------------------------------------------------------------- *)
(** ** Concrete inputs used by the examples                               *)
(* --------------------------------------------------------------------- *)

Module Samples.
Import Frame MLPipeline.
Local Open Scope string_scope.

(** 2024-05-01 00:00:00 UTC *)
Definition h0 : Z := 1714521600.

Definition co2_at (minute : Z) (area : string) (v : Z) : co2_record :=
  {| Minutes5UTC := h0 + 60 * minute; co2_PriceArea := area;
     CO2Emission := Some (inject_Z v) |}.

(** A full hour of DK1 samples: 120, 121, ..., 131 g/kWh. *)
Definition full_hour : list co2_record :=
  List.map (fun i => co2_at (5 * i) "DK1" (120 + i)) [0; 1; 2; 3; 4; 5; 6; 7; 8; 9; 10; 11].

(** A partial hour: three DK2 samples. *)
Definition partial_hour : list co2_record :=
  [co2_at 0 "DK2" 90; co2_at 5 "DK2" 96; co2_at 10 "DK2" 102].

Definition production_at (t : Z) (area : string) : renewable_record :=
  {| ren_HourUTC := t; ren_PriceArea := area;
     OffshoreWindLt100MW_MWh := Some (50 # 1); OffshoreWindGe100MW_MWh := Some (200 # 1);
     OnshoreWindLt50kW_MWh := Some (100 # 1); OnshoreWindGe50kW_MWh := Some (100 # 1);
     SolarPowerLt10kW_MWh := Some (20 # 1); SolarPowerGe10Lt40kW_MWh := None;
     SolarPowerGe40kW_MWh := Some (10 # 1); HydroPowerMWh := Some (20 # 1);
     GrossConsumptionMWh := Some (1000 # 1) |}.

Definition price_at (t : Z) (area : string) (dkk eur : Q) : price_record :=
  {| price_HourUTC := t; price_PriceArea := area;
     SpotPriceDKK := Some dkk; SpotPriceEUR := Some eur |}.

(** CO2 for the first hour only; production and prices for two hours. *)
Definition renewable_two_hours : list renewable_record :=
  [production_at h0 "DK1"; production_at (h0 + 3600) "DK1"].

Definition prices_two_hours : list price_record :=
  [price_at h0 "DK1" (600 # 1) (80 # 1); price_at (h0 + 3600) "DK1" (615 # 1) (82 # 1)].

(** The upstream service in three conditions. *)
Definition co2_row : Extraction.record :=
  [("Minutes5UTC", "2024-05-01T00:00:00"); ("PriceArea", "DK1"); ("CO2Emission", "120.0")].

Definition healthy_server (n : nat) (req : Extraction.request) : Extraction.http_outcome :=
  Extraction.Response 200 (Extraction.JsonObject None (Some [co2_row])).



Definition fresh_world : Extraction.world :=
  {| Extraction.requests := []; Extraction.files := ∅; Extraction.log := [] |}.

(** A warehouse with one fact per table for 2024-05-01, hour 0, area 1:
    a CO2 intensity of -5 g/kWh and a renewable percentage of 150. *)
Definition violating_database : Store.database :=
  {| Store.raw_co2_emissions := [];
     Store.raw_renewable_energy := [];
     Store.raw_electricity_prices := [];
     Store.dim_date := {[ 20240501 ]};
     Store.fact_co2_emissions :=
       {[ (20240501, 0, 1) := {| Store.co2_emission_g_kwh := Some (-5 # 1) |} ]};
     Store.fact_energy_production :=
       {[ (20240501, 0, 1) :=
            {| Store.total_production_mwh := Some (1000 # 1);
               Store.total_renewable_mwh := Some (1500 # 1);
               Store.renewable_percentage := Some (150 # 1);
               Store.gross_consumption_mwh := Some (1000 # 1) |} ]};
     Store.fact_electricity_prices :=
       {[ (20240501, 0, 1) :=
            {| Store.spot_price_eur := Some (80 # 1);
               Store.is_negative_price := false;
               Store.is_price_spike := false |} ]} |}.

(** One hour, two price areas: 75 DKK (10 EUR) in DK1, 7.5 DKK (1 EUR)
    in DK2. *)
Definition two_area_prices : list price_record :=
  [price_at h0 "DK1" (75 # 1) (10 # 1); price_at h0 "DK2" (15 # 2) (1 # 1)].

(** 30 days, in seconds. *)
Definition thirty_days : Z := 30 * 86400.

(** A raw staging file with a repeated key. *)
Definition raw_at (minute : Z) (area : string) (v : string) : Store.raw_row :=
  {| Store.raw_timestamp := h0 + 60 * minute; Store.raw_price_area := area;
     Store.raw_columns := [("CO2Emission", v)] |}.

Definition co2_file : list Store.raw_row :=
  [raw_at 0 "DK1" "120.0"; raw_at 5 "DK1" "121.0"; raw_at 0 "DK1" "120.0"].

Definition server_files : gmap string (list Store.raw_row) :=
  {[ "data/co2_emissions_raw.csv" := co2_file ]}.

Definition file_exists (path : string) : bool :=
  bool_decide (path = "data/co2_emissions_raw.csv").

Definition empty_database : Store.database :=
  {| Store.raw_co2_emissions := [];
     Store.raw_renewable_energy := [];
     Store.raw_electricity_prices := [];
     Store.dim_date := {[ 20240501 ]};
     Store.fact_co2_emissions := ∅;
     Store.fact_energy_production := ∅;
     Store.fact_electricity_prices := ∅ |}.

(** A stand-in for the ETL's derivation: one CO2 fact per staged row. *)
Definition one_fact_per_row (co2 renewable prices : list Store.raw_row) : Sql.fact_batch :=
  {| Sql.co2_rows :=
       List.map (fun r => ((20240501, (Store.raw_timestamp r - h0) / 3600, 1),
                           {| Store.co2_emission_g_kwh := Some (120 # 1) |})) co2;
     Sql.production_rows := [];
     Sql.price_rows := [] |}.

(** A first run of the loading pipeline on the empty warehouse. *)
Definition first_run
  : result (Z * string) * Warehouse.conn_state (DB := Store.database) :=
  Sql.run_pipeline server_files one_fact_per_row file_exists "data"
    (Warehouse.committed_as empty_database).

(** The service answering with an empty list of records, and with the
    third request of a run (the CO2 dataset) left unanswered. *)
Definition empty_server (n : nat) (req : Extraction.request) : Extraction.http_outcome :=
  Extraction.Response 200 (Extraction.JsonObject None (Some [])).

Definition co2_down_server (n : nat) (req : Extraction.request) : Extraction.http_outcome :=
  match n with 2%nat => Extraction.NoResponse | _ => healthy_server n req end.

(** A database that only counts the rows loaded, whose renewable load
    fails. *)
Definition counting_sql_function (function_name path : string) (db : Z)
  : Warehouse.executed Z Z :=
  if decide (function_name = "raw.load_renewable_energy_from_csv")
  then Warehouse.Failed "invalid input syntax" (db + 1)
  else Warehouse.Fetched (db + 3) (Some 3).

Definition counting_etl_function (db : Z) : Warehouse.executed Z string :=
  Warehouse.Fetched db (Some "ETL pipeline completed").

(** One merged row, and a row of the energy columns without renewable
    production. *)
Definition one_merged_row : merged_row :=
  {| datetime := h0; PriceArea := "DK1";
     m_co2_emission := Some (120 # 1); m_total_renewable_mwh := 500 # 1;
     m_spot_price_eur := Some (80 # 1); m_consumption_mwh := Some (1000 # 1) |}.

Definition calm_dark_hour : Features.energy_row :=
  {| Features.total_renewable_mwh := 0%float; Features.consumption_mwh := 1000%float |}.

(** 25 consecutive hours of DK1. *)
Definition twenty_five_hours : list merged_row :=
  List.map (fun i => {| datetime := h0 + 3600 * i; PriceArea := "DK1";
                        m_co2_emission := Some (inject_Z (120 + i));
                        m_total_renewable_mwh := 500 # 1;
                        m_spot_price_eur := Some (80 # 1);
                        m_consumption_mwh := Some (1000 # 1) |})
           (List.map Z.of_nat (seq 0 25)).

End Samples.

(* ===================================================================== *)
(** * Part II - theorems                                                  *)
(* ===================================================================== *)

Section FeaturesFacts.
Import Features.
Local Open Scope float_scope.

Lemma is_nan_spec (x : float) :
  PrimFloat.is_nan x = match Prim2SF x with S754_nan => true | _ => false end.
Proof.
  unfold PrimFloat.is_nan. rewrite FloatAxioms.eqb_spec.
  destruct (Prim2SF x) as [s|s| |s m e]; try (destruct s; reflexivity); try reflexivity.
  unfold SFeqb, SFcompare. rewrite Z.compare_refl, Pos.compare_cont_refl.
  destruct s; reflexivity.
Qed.

(** With a zero denominator the quotient is NaN when the numerator is zero
    or NaN, and an infinity of the combined sign otherwise; [fillna 0]
    only replaces the former. *)
Lemma renewable_percentage_zero_consumption (r : energy_row) (sc : bool) :
  Prim2SF (consumption_mwh r) = S754_zero sc ->
  Prim2SF (renewable_percentage r) =
    match Prim2SF (total_renewable_mwh r) with
    | S754_zero _ | S754_nan => S754_zero false
    | S754_infinity s | S754_finite s _ _ => S754_infinity (xorb s sc)
    end.
Proof.
  intros Hc. unfold renewable_percentage, fillna.
  set (q := total_renewable_mwh r / consumption_mwh r * 100).
  assert (Hq : Prim2SF q =
               match Prim2SF (total_renewable_mwh r) with
               | S754_zero _ | S754_nan => S754_nan
               | S754_infinity s | S754_finite s _ _ => S754_infinity (xorb s sc)
               end).
  { unfold q. rewrite mul_spec, div_spec, Hc.
    replace (Prim2SF 100) with (S754_finite false 7036874417766400 (-46))
      by (vm_compute; reflexivity).
    destruct (Prim2SF (total_renewable_mwh r)) as [s|s| |s m e];
      try reflexivity; destruct s, sc; reflexivity. }
  rewrite is_nan_spec, Hq.
  destruct (Prim2SF (total_renewable_mwh r)) as [s|s| |s m e];
    try exact Hq; reflexivity.
Qed.

(** C1: the renewable percentage of a merged row is
    total_renewable_mwh / consumption_mwh * 100 with NaN replaced by 0, so
    500 over 1000 gives 50.0 and 0 over 0 gives 0, and no fault is raised;
    but 500 over a denominator of 0 gives +infinity, where the
    specification has 0.  (The demonstration pipeline clips instead: 100
    for 500 over 0, NaN for 0 over 0.) *)
Theorem renewable_percentage_zero_denominator :
  renewable_percentage {| total_renewable_mwh := 500; consumption_mwh := 1000 |} = 50 /\
  renewable_percentage {| total_renewable_mwh := 0; consumption_mwh := 0 |} = 0 /\
  renewable_percentage {| total_renewable_mwh := 500; consumption_mwh := 0 |} = infinity /\
  demo_renewable_percentage 500 1000 = 50 /\
  demo_renewable_percentage 500 0 = 100 /\
  PrimFloat.is_nan (demo_renewable_percentage 0 0) = true.
Proof. repeat split; vm_compute; reflexivity. Qed.

End FeaturesFacts.

(* --------------------------------------------------------------------- *)
(** ** Grouping, sorting and joining                                      *)
(* --------------------------------------------------------------------- *)

Section FrameFacts.
Import Frame.

Lemma Qltb_lt (x y : Q) : Qltb x y = true <-> (x < y)%Q.
Proof.
  unfold Qltb. rewrite negb_true_iff, <- not_true_iff_false, Qle_bool_iff.
  split; [apply Qnot_le_lt|apply Qlt_not_le].
Qed.

Lemma Qltb_ge (x y : Q) : Qltb x y = false <-> (y <= x)%Q.
Proof.
  unfold Qltb. rewrite negb_false_iff. apply Qle_bool_iff.
Qed.


Lemma add_to_group_keys {V} (k k' : gkey) (v : V) (g : list (gkey * list V)) :
  In k (List.map fst (add_to_group k' v g)) <-> k = k' \/ In k (List.map fst g).
Proof.
  induction g as [|[k1 vs] g IH]; simpl.
  - intuition.
  - destruct (decide (k' = k1)) as [->|Hne]; simpl; [intuition|].
    rewrite IH. intuition.
Qed.

Lemma add_to_group_NoDup {V} (k : gkey) (v : V) (g : list (gkey * list V)) :
  List.NoDup (List.map fst g) -> List.NoDup (List.map fst (add_to_group k v g)).
Proof.
  induction g as [|[k1 vs] g IH]; simpl; intros Hnd.
  - constructor; [intros []|constructor].
  - destruct (decide (k = k1)) as [->|Hne]; simpl; [exact Hnd|].
    inversion Hnd as [|? ? Hnot Hnd']; subst. constructor.
    + rewrite add_to_group_keys. intros [->|Hin]; [congruence|contradiction].
    + apply IH, Hnd'.
Qed.

Lemma add_to_group_nonempty {V} (k : gkey) (v : V) (g : list (gkey * list V)) :
  List.Forall (fun p => p.2 <> []) g ->
  List.Forall (fun p => p.2 <> []) (add_to_group k v g).
Proof.
  induction g as [|[k1 vs] g IH]; simpl; intros Hall.
  - constructor; [discriminate|constructor].
  - inversion Hall as [|? ? Hne Hall']; subst.
    destruct (decide (k = k1)); constructor; auto.
    simpl. destruct vs; discriminate.
Qed.




Lemma factorize_invariant {V} (rows : list (gkey * V)) (g : list (gkey * list V)) :
  List.NoDup (List.map fst g) -> List.Forall (fun p => p.2 <> []) g ->
  let g' := fold_left (fun g kv => add_to_group kv.1 kv.2 g) rows g in
  List.NoDup (List.map fst g') /\ List.Forall (fun p => p.2 <> []) g'.
Proof.
  revert g. induction rows as [|[k1 v] rows IH]; intros g Hnd Hne; simpl.
  - split; assumption.
  - apply IH; [apply add_to_group_NoDup|apply add_to_group_nonempty]; assumption.
Qed.

Lemma factorize_NoDup {V} (rows : list (gkey * V)) :
  List.NoDup (List.map fst (factorize rows)).
Proof. apply (factorize_invariant rows []); constructor. Qed.


Lemma insert_sorted_perm {A} (leb : A -> A -> bool) (x : A) (l : list A) :
  Permutation (insert_sorted leb x l) (x :: l).
Proof.
  induction l as [|y l IH]; simpl; [reflexivity|].
  destruct (leb x y); [reflexivity|].
  rewrite IH. apply perm_swap.
Qed.

Lemma sort_by_perm {A} (leb : A -> A -> bool) (l : list A) :
  Permutation (sort_by leb l) l.
Proof.
  induction l as [|x l IH]; simpl; [reflexivity|].
  rewrite insert_sorted_perm. constructor. exact IH.
Qed.

Lemma gkey_leb_total (a b : gkey) : gkey_leb a b = true \/ gkey_leb b a = true.
Proof.
  unfold gkey_leb. destruct (decide (a.1 = b.1)) as [E|N].
  - rewrite decide_True by congruence. apply String.leb_total.
  - rewrite decide_False by congruence.
    destruct (Z.ltb_spec a.1 b.1); [left; reflexivity|right].
    apply Z.ltb_lt. lia.
Qed.

Lemma insert_sorted_Sorted {A} (leb : A -> A -> bool) (x : A) (l : list A) :
  (forall a b, leb a b = true \/ leb b a = true) ->
  Sorted (fun a b => leb a b = true) l ->
  Sorted (fun a b => leb a b = true) (insert_sorted leb x l).
Proof.
  intros Htot. induction l as [|y l IH]; simpl; intros Hs.
  - repeat constructor.
  - destruct (leb x y) eqn:E.
    + constructor; [exact Hs|constructor; exact E].
    + inversion Hs as [|? ? Hs' Hhd]; subst. constructor; [apply IH, Hs'|].
      assert (Hyx : leb y x = true) by (destruct (Htot x y); congruence).
      destruct l as [|z l]; simpl; [constructor; exact Hyx|].
      destruct (leb x z); constructor; [exact Hyx|].
      inversion Hhd; assumption.
Qed.

Lemma sort_by_Sorted {A} (leb : A -> A -> bool) (l : list A) :
  (forall a b, leb a b = true \/ leb b a = true) ->
  Sorted (fun a b => leb a b = true) (sort_by leb l).
Proof.
  intros Htot. induction l as [|x l IH]; simpl; [constructor|].
  apply insert_sorted_Sorted; assumption.
Qed.

(** The groups come out in the order of their keys. *)
Lemma groupby_Sorted {V} (rows : list (gkey * V)) :
  Sorted (fun a b => gkey_leb a.1 b.1 = true) (groupby rows).
Proof. apply (sort_by_Sorted (fun a b => gkey_leb a.1 b.1)). intros a b. apply gkey_leb_total. Qed.

Lemma groupby_perm {V} (rows : list (gkey * V)) :
  Permutation (groupby rows) (factorize rows).
Proof. apply sort_by_perm. Qed.


Lemma groupby_NoDup {V} (rows : list (gkey * V)) :
  List.NoDup (List.map fst (groupby rows)).
Proof.
  eapply Permutation_NoDup; [|apply (factorize_NoDup rows)].
  symmetry. apply Permutation_map, groupby_perm.
Qed.

Lemma merge_inner_In {A B C} (key_l : A -> gkey) (key_r : B -> gkey)
    (mk : A -> B -> C) (left : list A) (right : list B) (c : C) :
  In c (merge_inner key_l key_r mk left right) <->
  exists a b, In a left /\ In b right /\ key_l a = key_r b /\ c = mk a b.
Proof.
  unfold merge_inner. rewrite in_flat_map. split.
  - intros (a & Ha & Hc). apply in_map_iff in Hc as (b & <- & Hb).
    apply filter_In in Hb as [Hb Hk]. apply bool_decide_eq_true in Hk.
    exists a, b. auto.
  - intros (a & b & Ha & Hb & Hk & ->). exists a. split; [exact Ha|].
    apply in_map_iff. exists b. split; [reflexivity|].
    apply filter_In. split; [exact Hb|]. apply bool_decide_eq_true. exact Hk.
Qed.

Lemma filter_length_perm {A} (f : A -> bool) (l l' : list A) :
  Permutation l l' -> length (List.filter f l) = length (List.filter f l').
Proof.
  intros Hp. induction Hp; simpl; try lia.
  - destruct (f x); simpl; lia.
  - destruct (f x), (f y); simpl; lia.
Qed.

End FrameFacts.

(* --------------------------------------------------------------------- *)
(** ** The hourly rollup and the three-way join                           *)
(* --------------------------------------------------------------------- *)

Section MLPipelineFacts.
Import Frame MLPipeline.



Lemma co2_agg_NoDup (co2_data : list co2_record) :
  List.NoDup (List.map co2_hourly_key (co2_agg co2_data)).
Proof.
  unfold co2_agg. rewrite List.map_map.
  rewrite (List.map_ext _ fst); [apply groupby_NoDup|].
  intros [[t a] vs]. reflexivity.
Qed.

(** Where a merged row comes from: a row of each of the three streams,
    all with the merged row's key. *)
Lemma merged_row_sources (co2_data : list co2_record)
    (renewable_data : list renewable_record) (price_data : list price_record)
    (row : merged_row) :
  In row (_create_merged_dataset co2_data renewable_data price_data) ->
  exists c r p,
    In c (co2_agg co2_data) /\ In r renewable_data /\ In p price_data /\
    co2_hourly_key c = merged_key row /\ ren_key r = merged_key row /\
    price_key p = merged_key row /\
    row = merge_price (merge_renewable c r) p.
Proof.
  intros Hin. unfold _create_merged_dataset in Hin.
  apply merge_inner_In in Hin as (m & p & Hm & Hp & Hkp & ->).
  apply merge_inner_In in Hm as (c & r & Hc & Hr & Hcr & ->).
  apply filter_In in Hp as [Hp _].
  exists c, r, p. unfold merged_key in *. simpl in *.
  repeat split; auto; congruence.
Qed.

(** C2: the merged dataset holds a row for a key only when the key occurs
    in all three hourly streams: the rolled-up CO2 stream, the production
    stream and the price stream.  A key missing from any of them has no
    row. *)
Theorem join_streams_strict_inner (co2_data : list co2_record)
    (renewable_data : list renewable_record) (price_data : list price_record)
    (k : gkey) :
  present_in merged_key k (_create_merged_dataset co2_data renewable_data price_data) ->
  present_in co2_hourly_key k (co2_agg co2_data) /\
  present_in ren_key k renewable_data /\
  present_in price_key k price_data.
Proof.
  intros (row & Hin & Hk).
  apply merged_row_sources in Hin as (c & r & p & Hc & Hr & Hp & Hck & Hrk & Hpk & _).
  rewrite Hk in Hck, Hrk, Hpk.
  split; [exists c; auto|]. split; [exists r; auto|]. exists p. auto.
Qed.

(** The gap form of the same fact: a key that one stream lacks yields no
    merged row. *)
Corollary join_gap_no_row (co2_data : list co2_record)
    (renewable_data : list renewable_record) (price_data : list price_record)
    (k : gkey) :
  ~ present_in co2_hourly_key k (co2_agg co2_data) \/
  ~ present_in ren_key k renewable_data \/
  ~ present_in price_key k price_data ->
  forall row, In row (_create_merged_dataset co2_data renewable_data price_data) ->
              merged_key row <> k.
Proof.
  intros Hgap row Hin Hk.
  apply merged_row_sources in Hin as (c & r & p & Hc & Hr & Hp & Hck & Hrk & Hpk & _).
  rewrite Hk in Hck, Hrk, Hpk.
  destruct Hgap as [H|[H|H]]; apply H; [exists c|exists r|exists p]; auto.
Qed.

(** X20: the price stream is first cut down to the Danish areas, so
    every merged row lies in DK1 or in DK2. *)
Lemma merged_rows_are_danish (co2_data : list co2_record)
    (renewable_data : list renewable_record) (price_data : list price_record)
    (row : merged_row) :
  In row (_create_merged_dataset co2_data renewable_data price_data) ->
  PriceArea row = "DK1"%string \/ PriceArea row = "DK2"%string.
Proof.
  intros Hin. unfold _create_merged_dataset in Hin.
  apply merge_inner_In in Hin as (m & p & Hm & Hp & Hkp & ->).
  apply filter_In in Hp as [_ Hd]. unfold merged_key, price_key in Hkp.
  simpl. inversion Hkp as [[Ht Ha]]. rewrite Ha.
  unfold is_danish in Hd. apply orb_true_iff in Hd as [Hd|Hd];
    apply bool_decide_eq_true in Hd; auto.
Qed.

(** X21: conversely a Danish key held by all three streams does get a
    row. *)
Lemma join_streams_complete (co2_data : list co2_record)
    (renewable_data : list renewable_record) (price_data : list price_record)
    (k : gkey) :
  is_danish k.2 = true ->
  present_in co2_hourly_key k (co2_agg co2_data) ->
  present_in ren_key k renewable_data ->
  present_in price_key k price_data ->
  present_in merged_key k (_create_merged_dataset co2_data renewable_data price_data).
Proof.
  intros Hd (c & Hc & Hck) (r & Hr & Hrk) (p & Hp & Hpk).
  exists (merge_price (merge_renewable c r) p). split.
  - apply merge_inner_In. exists (merge_renewable c r), p.
    split; [|split; [|split; [|reflexivity]]].
    + apply merge_inner_In. exists c, r. rewrite Hck, Hrk. auto.
    + apply filter_In. split; [exact Hp|].
      change (price_PriceArea p) with (price_key p).2. rewrite Hpk. exact Hd.
    + unfold merged_key. simpl. fold (co2_hourly_key c). congruence.
  - unfold merged_key. simpl. exact Hck.
Qed.

(** Twelve samples: one row carrying their mean, 1506 / 12 = 125.5. *)
Example rollup_full_hour :
  exists m, co2_agg Samples.full_hour =
            [{| co2_datetime := Samples.h0; co2_area := "DK1"; co2_emission := Some m |}]
            /\ (m == 251 # 2)%Q.
Proof. eexists. split; [vm_compute; reflexivity|reflexivity]. Qed.

(** Three samples of twelve: still a row, the mean of the three. *)
Example rollup_partial_hour :
  exists m, co2_agg Samples.partial_hour =
            [{| co2_datetime := Samples.h0; co2_area := "DK2"; co2_emission := Some m |}]
            /\ (m == 96 # 1)%Q.
Proof. eexists. split; [vm_compute; reflexivity|reflexivity]. Qed.

(** No sample: no row (and no zero-filled row for the next hour either). *)
Example rollup_no_samples :
  co2_agg [] = [] /\
  List.map co2_hourly_key (co2_agg (Samples.full_hour ++ Samples.partial_hour)) =
    [(Samples.h0, "DK1"%string); (Samples.h0, "DK2"%string)].
Proof. split; vm_compute; reflexivity. Qed.

Lemma join_streams_strict_inner_witness :
  present_in co2_hourly_key (Samples.h0, "DK1"%string) (co2_agg Samples.full_hour) /\
  present_in ren_key (Samples.h0, "DK1"%string) Samples.renewable_two_hours /\
  present_in price_key (Samples.h0, "DK1"%string) Samples.prices_two_hours.
Proof.
  apply (join_streams_strict_inner Samples.full_hour Samples.renewable_two_hours
           Samples.prices_two_hours).
  eexists. split; [vm_compute; left; reflexivity|reflexivity].
Defined.

(** Production and price exist for the second hour, CO2 does not: the
    merged dataset has the first hour only. *)
Example join_gap_second_hour :
  List.map merged_key
    (_create_merged_dataset Samples.full_hour Samples.renewable_two_hours
       Samples.prices_two_hours) = [(Samples.h0, "DK1"%string)].
Proof. vm_compute. reflexivity. Qed.

End MLPipelineFacts.

(* --------------------------------------------------------------------- *)
(** ** The hourly rollup on binary64 values                               *)
(* --------------------------------------------------------------------- *)

Section RollupFacts.
Import Frame Rollup.
Local Open Scope float_scope.








End RollupFacts.

(* --------------------------------------------------------------------- *)
(** ** Extraction: requests sent, failures absorbed                       *)
(* --------------------------------------------------------------------- *)

Section ExtractionFacts.
Import Py Extraction.

Variable server : nat -> request -> http_outcome.
Variable now output_dir : string.



(** The steps of a full run, with the world after each. *)
Lemma run_full_extraction_unfold (start_date end_date : string) (w w0 w1 w2 w3 w4 : world)
    (l : list record) (d1 d2 d3 d4 : DataFrame) :
  get_dataset_list server output_dir
    {| requests := requests w; files := files w;
       log := log w ++ [(INFO, Starting_full_extraction)] |} = (Ok l, w0) ->
  extract_electricity_data server output_dir start_date end_date w0 = (Ok d1, w1) ->
  extract_co2_emissions_data server output_dir start_date end_date w1 = (Ok d2, w2) ->
  extract_renewable_energy_data server output_dir start_date end_date w2 = (Ok d3, w3) ->
  extract_electricity_prices server output_dir start_date end_date w3 = (Ok d4, w4) ->
  let s := {| extraction_date := now;
              date_range := (start_date ++ " to " ++ end_date)%string;
              n_electricity_balance := length d1;
              n_co2_emissions := length d2;
              n_renewable_energy := length d3;
              n_electricity_prices := length d4;
              total_records := (length d1 + length d2 + length d3 + length d4)%nat |} in
  run_full_extraction server now output_dir start_date end_date w
    = (Ok s, {| requests := requests w4;
                files := <[path_join output_dir "extraction_summary.json" := SummaryFile s]>
                           (files w4);
                log := log w4 ++ [(INFO, Extraction_completed (total_records s))] |}).
Proof.
  intros E0 E1 E2 E3 E4 s. unfold run_full_extraction.
  unfold bind at 1. unfold logger at 1. cbv beta iota.
  unfold bind at 1. rewrite E0. cbv beta iota.
  unfold bind at 1. rewrite E1. cbv beta iota.
  unfold bind at 1. rewrite E2. cbv beta iota.
  unfold bind at 1. rewrite E3. cbv beta iota.
  unfold bind at 1. rewrite E4. cbv beta iota.
  reflexivity.
Qed.




End ExtractionFacts.

Section ExtractionExamples.
Import Py Extraction.
Local Open Scope string_scope.

Example path_join_raw_data :
  path_join "raw_data" "co2_emissions_raw.csv" = "raw_data/co2_emissions_raw.csv"
  /\ path_join "out/" "x.csv" = "out/x.csv" /\ path_join "" "x.csv" = "x.csv".
Proof. repeat split; vm_compute; reflexivity. Qed.



End ExtractionExamples.

(* --------------------------------------------------------------------- *)
(** ** Warehouse loader: commit on success, rollback on error             *)
(* --------------------------------------------------------------------- *)

Section LoaderFacts.
Import Py Warehouse.
Context {DB : Type}.

Variable sql_function : string -> string -> DB -> executed DB Z.
Variable etl_function : DB -> executed DB string.
Variable commit_error : DB -> option string.

Lemma load_csv_to_raw_table_outcome (csv_file_path table_name function_name : string)
    (s : conn_state (DB := DB)) :
  load_csv_to_raw_table sql_function commit_error csv_file_path table_name function_name s =
  match s with
  | None => (Raise AttributeError, None)
  | Some c =>
      match sql_function function_name csv_file_path (pending c) with
      | Failed msg _ => (Raise (DatabaseError msg), rolled_back c)
      | Fetched _ None => (Raise TypeError, rolled_back c)
      | Fetched db' (Some n) =>
          match commit_error db' with
          | Some msg => (Raise (DatabaseError msg), rolled_back c)
          | None => (Ok n, committed_as db')
          end
      end
  end.
Proof.
  unfold load_csv_to_raw_table, try_except, bind, cursor, execute, commit.
  destruct s as [c|]; [|reflexivity].
  destruct (sql_function function_name csv_file_path (pending c)) as [msg d|db' [n|]];
    try reflexivity.
  simpl. destruct (commit_error db'); reflexivity.
Qed.

Lemma run_etl_pipeline_outcome (s : conn_state (DB := DB)) :
  run_etl_pipeline etl_function commit_error s =
  match s with
  | None => (Raise AttributeError, None)
  | Some c =>
      match etl_function (pending c) with
      | Failed msg _ => (Raise (DatabaseError msg), rolled_back c)
      | Fetched _ None => (Raise TypeError, rolled_back c)
      | Fetched db' (Some r) =>
          match commit_error db' with
          | Some msg => (Raise (DatabaseError msg), rolled_back c)
          | None => (Ok r, committed_as db')
          end
      end
  end.
Proof.
  unfold run_etl_pipeline, try_except, bind, cursor, execute, commit.
  destruct s as [c|]; [|reflexivity].
  destruct (etl_function (pending c)) as [msg d|db' [r|]]; try reflexivity.
  simpl. destruct (commit_error db'); reflexivity.
Qed.

(** C10: when [load_csv_to_raw_table] or [run_etl_pipeline] raises on an
    open connection (the statement failed, it gave no row, or the commit
    was refused), the transaction has been rolled back: the committed
    database is the one from before the call and the transaction sees it
    again.  Only a call that returns has committed what the statement
    did. *)
Theorem failed_call_is_rolled_back (csv_file_path table_name function_name : string)
    (c : connection DB) :
  (let (r, s') := load_csv_to_raw_table sql_function commit_error csv_file_path
                    table_name function_name (Some c) in
   match r with
   | Raise _ => s' = Some {| committed := committed c; pending := committed c |}
   | Ok n => exists db', sql_function function_name csv_file_path (pending c)
                         = Fetched db' (Some n)
                         /\ commit_error db' = None
                         /\ s' = Some {| committed := db'; pending := db' |}
   end) /\
  (let (r, s') := run_etl_pipeline etl_function commit_error (Some c) in
   match r with
   | Raise _ => s' = Some {| committed := committed c; pending := committed c |}
   | Ok v => exists db', etl_function (pending c) = Fetched db' (Some v)
                         /\ commit_error db' = None
                         /\ s' = Some {| committed := db'; pending := db' |}
   end).
Proof.
  rewrite load_csv_to_raw_table_outcome, run_etl_pipeline_outcome. split.
  - destruct (sql_function function_name csv_file_path (pending c)) as [msg d|db' [n|]];
      try reflexivity.
    destruct (commit_error db') eqn:Hc; [reflexivity|]. exists db'. auto.
  - destruct (etl_function (pending c)) as [msg d|db' [v|]];
      try reflexivity.
    destruct (commit_error db') eqn:Hc; [reflexivity|]. exists db'. auto.
Qed.

(** Without a connection there is nothing to roll back; the call raises
    and the loader is as before. *)
Lemma call_without_connection (csv_file_path table_name function_name : string) :
  load_csv_to_raw_table sql_function commit_error csv_file_path table_name
    function_name None = (Raise AttributeError, None) /\
  run_etl_pipeline etl_function commit_error None = (Raise AttributeError, None).
Proof. split; reflexivity. Qed.

End LoaderFacts.

(* --------------------------------------------------------------------- *)
(** ** Quality checks                                                     *)
(* --------------------------------------------------------------------- *)

Section StoreFacts.
Import Py Warehouse Frame Store.

Lemma count_where_zero {V} (condition : fact_key -> V -> bool) (table : gmap fact_key V) :
  count_where condition table = O <->
  forall k v, table !! k = Some v -> condition k v = false.
Proof.
  unfold count_where. split.
  - intros Hlen k v Hkv.
    apply elem_of_map_to_list, list_elem_of_In in Hkv.
    destruct (condition k v) eqn:Hc; [|reflexivity].
    assert (Hin : In (k, v) (List.filter (fun kv => condition kv.1 kv.2) (map_to_list table)))
      by (apply filter_In; auto).
    destruct (List.filter _ _); [contradiction|discriminate].
  - intros Hall.
    assert (Hnil : List.filter (fun kv => condition kv.1 kv.2) (map_to_list table) = []).
    { destruct (List.filter _ _) as [|[k v] l] eqn:Hf; [reflexivity|].
      assert (Hin : In (k, v) ((k, v) :: l)) by (left; reflexivity).
      rewrite <- Hf in Hin. apply filter_In in Hin as [Hin Hc].
      apply list_elem_of_In, elem_of_map_to_list in Hin.
      simpl in Hc. rewrite (Hall k v Hin) in Hc. discriminate. }
    rewrite Hnil. reflexivity.
Qed.

Lemma count_where_violations {V} (condition : fact_key -> V -> bool)
    (violates : fact_key * V -> Prop) `{!forall kv, Decision (violates kv)}
    (table : gmap fact_key V) :
  (forall k v, condition k v = true <-> violates (k, v)) ->
  count_where condition table = violations violates table.
Proof.
  intros Hc. unfold count_where, violations.
  induction table as [|k v m Hk IH] using map_ind.
  - rewrite map_to_list_empty, map_filter_empty, map_size_empty. reflexivity.
  - rewrite (filter_length_perm _ _ _ (map_to_list_insert m k v Hk)).
    cbn [List.filter fst snd]. rewrite map_filter_insert.
    destruct (condition k v) eqn:E.
    + rewrite decide_True by (apply Hc, E).
      rewrite map_size_insert_None by (apply map_lookup_filter_None; auto).
      cbn [length]. rewrite IH. reflexivity.
    + rewrite decide_False by (rewrite <- Hc, E; discriminate).
      rewrite delete_id by exact Hk. exact IH.
Qed.
Lemma sql_lt_below (x : cell) (bound : Q) : sql_lt x bound = true <-> below bound x.
Proof. destruct x as [v|]; simpl; [apply Qltb_lt|split; [discriminate|tauto]]. Qed.

Lemma sql_range_outside (x : cell) (lo hi : Q) :
  sql_lt x lo || sql_gt x hi = true <-> outside lo hi x.
Proof.
  destruct x as [v|]; simpl; [|split; [discriminate|tauto]].
  rewrite orb_true_iff, !Qltb_lt. reflexivity.
Qed.

(** C4 (amended): on an open connection the quality check returns its
    report whatever the tables hold, and leaves the loader as it was.  The
    report has five lines, each a label and the number of facts that
    violate the check: CO2 facts without a value, CO2 values outside
    [0, 1000], renewable percentages below 0 (no upper bound is checked),
    spot prices outside [-1000, 5000], and CO2 facts whose date key is
    not in the date dimension.  A missing value is outside no range. *)
Theorem quality_checks_report_counts (c : connection database) :
  let db := pending c in
  validate_data_quality (Some c) =
    (Ok [ "Null CO2 values: "
            ++ pretty (violations (fun kv => is_null (co2_emission_g_kwh kv.2))
                         (fact_co2_emissions db));
          "Invalid CO2 values (outside 0-1000): "
            ++ pretty (violations (fun kv => outside 0 1000 (co2_emission_g_kwh kv.2))
                         (fact_co2_emissions db));
          "Negative renewable percentages: "
            ++ pretty (violations (fun kv => below 0 (renewable_percentage kv.2))
                         (fact_energy_production db));
          "Extreme price values: "
            ++ pretty (violations (fun kv => outside (-1000) 5000 (spot_price_eur kv.2))
                         (fact_electricity_prices db));
          "Orphaned CO2 records (missing date): "
            ++ pretty (violations (fun kv => date_key kv.1 ∉ dim_date db)
                         (fact_co2_emissions db)) ]%string,
     Some c).
Proof.
  intros db. unfold violations.
  change (validate_data_quality (Some c)) with (Ok (quality_report db), Some c).
  unfold quality_report, null_co2_values, invalid_co2_values, negative_renewable,
    extreme_prices, orphaned_co2_records.
  rewrite (count_where_violations _ (fun kv => is_null (co2_emission_g_kwh kv.2)))
    by (intros k f; apply bool_decide_eq_true).
  rewrite (count_where_violations _ (fun kv => outside 0 1000 (co2_emission_g_kwh kv.2)))
    by (intros k f; apply sql_range_outside).
  rewrite (count_where_violations _ (fun kv => below 0 (renewable_percentage kv.2)))
    by (intros k f; apply sql_lt_below).
  rewrite (count_where_violations _ (fun kv => outside (-1000) 5000 (spot_price_eur kv.2)))
    by (intros k f; apply sql_range_outside).
  rewrite (count_where_violations _ (fun kv => date_key kv.1 ∉ dim_date db))
    by (intros k f; apply bool_decide_eq_true).
  reflexivity.
Qed.

(** A renewable percentage of 150 lies outside [0, 100] and is not
    counted, while the CO2 intensity of -5 is; the call returns. *)
Lemma renewable_above_100_counterexample :
  renewable_percentage <$> (fact_energy_production Samples.violating_database
                              !! (20240501, 0, 1)) = Some (Some (150 # 1)) /\
  (validate_data_quality (committed_as Samples.violating_database)).1 =
    Ok [ "Null CO2 values: 0";
         "Invalid CO2 values (outside 0-1000): 1";
         "Negative renewable percentages: 0";
         "Extreme price values: 0";
         "Orphaned CO2 records (missing date): 0" ]%string.
Proof. split; vm_compute; reflexivity. Qed.

End StoreFacts.

(* --------------------------------------------------------------------- *)
(** ** Raw staging and the fact upsert                                    *)
(* --------------------------------------------------------------------- *)

Section SqlFacts.
Import Py Warehouse Store Sql.

Lemma persist_new_grows (records staging : list raw_row) (k : Z * string) :
  k ∈ List.map raw_key staging -> k ∈ List.map raw_key (persist_new records staging).2.
Proof.
  revert staging. induction records as [|r records IH]; intros staging Hk; simpl.
  - exact Hk.
  - destruct (decide (raw_key r ∈ List.map raw_key staging)) as [Hin|Hnin];
      [apply IH, Hk|].
    specialize (IH (staging ++ [r])).
    destruct (persist_new records (staging ++ [r])) as [n t]. simpl in *.
    apply IH. rewrite List.map_app. apply elem_of_app. left. exact Hk.
Qed.

Lemma persist_new_covers (records staging : list raw_row) (r : raw_row) :
  r ∈ records -> raw_key r ∈ List.map raw_key (persist_new records staging).2.
Proof.
  revert staging. induction records as [|r0 records IH]; intros staging Hr; simpl.
  - inversion Hr.
  - apply elem_of_cons in Hr as [->|Hr].
    + destruct (decide (raw_key r0 ∈ List.map raw_key staging)) as [Hin|Hnin].
      * apply persist_new_grows, Hin.
      * pose proof (persist_new_grows records (staging ++ [r0]) (raw_key r0)) as Hg.
        destruct (persist_new records (staging ++ [r0])) as [n t]. simpl in *.
        apply Hg. rewrite List.map_app. apply elem_of_app. right. simpl. left.
    + destruct (decide (raw_key r0 ∈ List.map raw_key staging)) as [Hin|Hnin];
        [apply IH, Hr|].
      specialize (IH (staging ++ [r0]) Hr).
      destruct (persist_new records (staging ++ [r0])) as [n t]. exact IH.
Qed.

Lemma persist_new_NoDup (records staging : list raw_row) :
  NoDup (List.map raw_key staging) ->
  NoDup (List.map raw_key (persist_new records staging).2).
Proof.
  revert staging. induction records as [|r records IH]; intros staging Hnd; simpl.
  - exact Hnd.
  - destruct (decide (raw_key r ∈ List.map raw_key staging)) as [Hin|Hnin]; [apply IH, Hnd|].
    specialize (IH (staging ++ [r])).
    destruct (persist_new records (staging ++ [r])) as [n t]. simpl in *.
    apply IH. rewrite List.map_app. apply NoDup_app. split; [exact Hnd|]. split.
    + intros k Hk Hk'. simpl in Hk'. apply list_elem_of_singleton in Hk'. subst k.
      contradiction.
    + simpl. apply NoDup_singleton.
Qed.

Lemma persist_new_known (records staging : list raw_row) :
  (forall r, r ∈ records -> raw_key r ∈ List.map raw_key staging) ->
  persist_new records staging = (O, staging).
Proof.
  induction records as [|r records IH]; intros Hall; simpl; [reflexivity|].
  rewrite decide_True by (apply Hall; left).
  apply IH. intros r' Hr'. apply Hall. right. exact Hr'.
Qed.

(** Ingesting the same records again persists nothing. *)
Lemma persist_new_again (records staging : list raw_row) :
  persist_new records (persist_new records staging).2 = (O, (persist_new records staging).2).
Proof. apply persist_new_known. intros r Hr. apply persist_new_covers, Hr. Qed.

Section Server.
Variable server_files : gmap string (list raw_row).

(** One load function on a database with unique staging keys: a failure
    changes nothing; a success keeps the keys unique, and the same call on
    the result persists no row and changes nothing. *)
Lemma sql_function_unique (function_name path : string) (db : database) :
  staging_unique db ->
  match sql_function server_files function_name path db with
  | Failed _ dirty => dirty = db
  | Fetched db' row =>
      staging_unique db' /\ (exists n, row = Some n) /\
      sql_function server_files function_name path db' = Fetched db' (Some 0)
  end.
Proof.
  intros (Hco2 & Hren & Hprice). unfold sql_function.
  repeat (destruct (decide _) as [_|_]); try reflexivity;
    unfold load_from_csv; simpl;
    (destruct (server_files !! path) as [records|]; [|reflexivity]).
  - pose proof (persist_new_NoDup records _ Hco2) as Hnd.
    pose proof (persist_new_again records (raw_co2_emissions db)) as Hagain.
    destruct (persist_new records (raw_co2_emissions db)) as [n staging].
    simpl in *. rewrite Hagain. unfold staging_unique. simpl. eauto 6.
  - pose proof (persist_new_NoDup records _ Hren) as Hnd.
    pose proof (persist_new_again records (raw_renewable_energy db)) as Hagain.
    destruct (persist_new records (raw_renewable_energy db)) as [n staging].
    simpl in *. rewrite Hagain. unfold staging_unique. simpl. eauto 6.
  - pose proof (persist_new_NoDup records _ Hprice) as Hnd.
    pose proof (persist_new_again records (raw_electricity_prices db)) as Hagain.
    destruct (persist_new records (raw_electricity_prices db)) as [n staging].
    simpl in *. rewrite Hagain. unfold staging_unique. simpl. eauto 6.
Qed.

(** C6: raw staging keeps one row per (timestamp, price area) in each
    dataset's table.  When the keys are unique before a call of
    [load_csv_to_raw_table] they are unique after it, whatever the file
    holds and whether the call returns or raises; and loading the same
    file again persists no row and leaves the warehouse as it is. *)
Theorem raw_staging_stays_unique (commit_error : database -> option string)
    (csv_file_path table_name function_name : string) (c : connection database) :
  staging_unique (committed c) -> staging_unique (pending c) ->
  let (r, s') := load_csv_to_raw_table (sql_function server_files) commit_error
                   csv_file_path table_name function_name (Some c) in
  (exists c', s' = Some c' /\ staging_unique (committed c') /\ staging_unique (pending c')) /\
  (returned r ->
   load_csv_to_raw_table (sql_function server_files) commit_error csv_file_path
     table_name function_name s' = (Ok 0, s')).
Proof.
  intros Hc Hp. rewrite load_csv_to_raw_table_outcome.
  pose proof (sql_function_unique function_name csv_file_path (pending c) Hp) as H.
  destruct (sql_function server_files function_name csv_file_path (pending c))
    as [msg dirty|db' [n|]].
  - split; [|intros []]. eexists. split; [reflexivity|]. simpl. auto.
  - destruct H as (Hu & _ & Hagain).
    destruct (commit_error db') as [msg|] eqn:Hcommit.
    + split; [|intros []]. eexists. split; [reflexivity|]. simpl. auto.
    + split.
      * eexists. split; [reflexivity|]. simpl. auto.
      * intros _. rewrite load_csv_to_raw_table_outcome. simpl.
        rewrite Hagain, Hcommit. reflexivity.
  - destruct H as (_ & [n Hn] & _). discriminate.
Qed.

Lemma upsert_facts_lookup_other {V} (rows : list (fact_key * V)) (table : gmap fact_key V)
    (k : fact_key) :
  k ∉ List.map fst rows -> upsert_facts rows table !! k = table !! k.
Proof.
  unfold upsert_facts. revert table.
  induction rows as [|[k0 v0] rows IH]; intros table Hk; simpl; [reflexivity|].
  simpl in Hk. apply not_elem_of_cons in Hk as [Hne Hk].
  rewrite IH by exact Hk. apply lookup_insert_ne. congruence.
Qed.

Lemma upsert_facts_lookup_base {V} (rows : list (fact_key * V)) (t t' : gmap fact_key V)
    (k : fact_key) :
  k ∈ List.map fst rows -> upsert_facts rows t !! k = upsert_facts rows t' !! k.
Proof.
  unfold upsert_facts. revert t t'.
  induction rows as [|[k0 v0] rows IH]; intros t t' Hk; simpl; [inversion Hk|].
  destruct (decide (k ∈ List.map fst rows)) as [Hin|Hnin]; [apply IH, Hin|].
  simpl in Hk. apply elem_of_cons in Hk as [->|Hk]; [|contradiction].
  pose proof (upsert_facts_lookup_other rows (<[k0:=v0]> t) k0 Hnin) as H1.
  pose proof (upsert_facts_lookup_other rows (<[k0:=v0]> t') k0 Hnin) as H2.
  unfold upsert_facts in H1, H2. simpl. rewrite H1, H2, !lookup_insert_eq. reflexivity.
Qed.

(** Writing the same rows a second time changes no table. *)
Lemma upsert_facts_idempotent {V} (rows : list (fact_key * V)) (table : gmap fact_key V) :
  upsert_facts rows (upsert_facts rows table) = upsert_facts rows table.
Proof.
  apply map_eq. intros k.
  destruct (decide (k ∈ List.map fst rows)) as [Hin|Hnin].
  - apply upsert_facts_lookup_base, Hin.
  - apply upsert_facts_lookup_other, Hnin.
Qed.

(** A key is held once, with the values of the last row written for it. *)
Lemma upsert_facts_last {V} (rows : list (fact_key * V)) (table : gmap fact_key V)
    (k : fact_key) (v : V) :
  upsert_facts (rows ++ [(k, v)]) table !! k = Some v.
Proof.
  unfold upsert_facts. rewrite fold_left_app. simpl. apply lookup_insert_eq.
Qed.

Variable transform : list raw_row -> list raw_row -> list raw_row -> fact_batch.

Lemma load_co2_outcome (path table_name : string) (s : conn_state (DB := database)) :
  load_csv_to_raw_table (sql_function server_files) always_commits path table_name
    "raw.load_co2_emissions_from_csv" s =
  match s with
  | None => (Raise AttributeError, None)
  | Some c =>
      match server_files !! path with
      | None => (Raise (DatabaseError "could not open file"), rolled_back c)
      | Some records =>
          let out := persist_new records (raw_co2_emissions (pending c)) in
          (Ok (Z.of_nat out.1), committed_as (set_raw_co2_emissions out.2 (pending c)))
      end
  end.
Proof.
  rewrite load_csv_to_raw_table_outcome. destruct s as [c|]; [|reflexivity].
  change (sql_function server_files "raw.load_co2_emissions_from_csv" path (pending c))
    with (load_from_csv server_files raw_co2_emissions set_raw_co2_emissions path (pending c)).
  unfold load_from_csv. destruct (server_files !! path) as [records|]; [|reflexivity].
  destruct (persist_new records (raw_co2_emissions (pending c))). reflexivity.
Qed.

Lemma load_renewable_outcome (path table_name : string) (s : conn_state (DB := database)) :
  load_csv_to_raw_table (sql_function server_files) always_commits path table_name
    "raw.load_renewable_energy_from_csv" s =
  match s with
  | None => (Raise AttributeError, None)
  | Some c =>
      match server_files !! path with
      | None => (Raise (DatabaseError "could not open file"), rolled_back c)
      | Some records =>
          let out := persist_new records (raw_renewable_energy (pending c)) in
          (Ok (Z.of_nat out.1), committed_as (set_raw_renewable_energy out.2 (pending c)))
      end
  end.
Proof.
  rewrite load_csv_to_raw_table_outcome. destruct s as [c|]; [|reflexivity].
  change (sql_function server_files "raw.load_renewable_energy_from_csv" path (pending c))
    with (load_from_csv server_files raw_renewable_energy set_raw_renewable_energy path
            (pending c)).
  unfold load_from_csv. destruct (server_files !! path) as [records|]; [|reflexivity].
  destruct (persist_new records (raw_renewable_energy (pending c))). reflexivity.
Qed.

Lemma load_prices_outcome (path table_name : string) (s : conn_state (DB := database)) :
  load_csv_to_raw_table (sql_function server_files) always_commits path table_name
    "raw.load_electricity_prices_from_csv" s =
  match s with
  | None => (Raise AttributeError, None)
  | Some c =>
      match server_files !! path with
      | None => (Raise (DatabaseError "could not open file"), rolled_back c)
      | Some records =>
          let out := persist_new records (raw_electricity_prices (pending c)) in
          (Ok (Z.of_nat out.1), committed_as (set_raw_electricity_prices out.2 (pending c)))
      end
  end.
Proof.
  rewrite load_csv_to_raw_table_outcome. destruct s as [c|]; [|reflexivity].
  change (sql_function server_files "raw.load_electricity_prices_from_csv" path (pending c))
    with (load_from_csv server_files raw_electricity_prices set_raw_electricity_prices path
            (pending c)).
  unfold load_from_csv. destruct (server_files !! path) as [records|]; [|reflexivity].
  destruct (persist_new records (raw_electricity_prices (pending c))). reflexivity.
Qed.

Lemma etl_outcome (s : conn_state (DB := database)) :
  run_etl_pipeline (core_run_etl_pipeline transform) always_commits s =
  match s with
  | None => (Raise AttributeError, None)
  | Some c =>
      (Ok "ETL pipeline completed"%string,
       committed_as
         (upsert_batch (transform (raw_co2_emissions (pending c))
                          (raw_renewable_energy (pending c))
                          (raw_electricity_prices (pending c))) (pending c)))
  end.
Proof. rewrite run_etl_pipeline_outcome. destruct s; reflexivity. Qed.

Variable file_exists : string -> bool.
Variable data_dir : string.

Ltac reduce_tables :=
  unfold upsert_batch, set_raw_co2_emissions, set_raw_renewable_energy,
    set_raw_electricity_prices;
  cbn [committed_as pending committed raw_co2_emissions raw_renewable_energy
       raw_electricity_prices dim_date fact_co2_emissions fact_energy_production
       fact_electricity_prices fst snd].

(** One load of the second run: the file is found again and every record
    of it is already in staging. *)
Ltac rerun_load outcome :=
  try (rewrite outcome; cbn [committed_as pending];
       match goal with
       | Hl : ?files !! ?p = Some _ |- context [?files !! ?p] => rewrite Hl
       end;
       reduce_tables; rewrite persist_new_again; reduce_tables).

(** C7: a second run of the loading pipeline over the same files is
    idempotent.  When a run has returned, running it again returns too,
    persists no raw row, and leaves the warehouse (the fact tables, keyed
    by (date_key, time_key, price_area_key), and raw staging, committed
    and as the transaction sees them) exactly as the first run left it. *)
Theorem pipeline_rerun_is_idempotent (s s1 : conn_state (DB := database)) (v : Z * string) :
  run_pipeline server_files transform file_exists data_dir s = (Ok v, s1) ->
  run_pipeline server_files transform file_exists data_dir s1 = (Ok (0, v.2), s1).
Proof.
  unfold run_pipeline, load_and_transform, csv_files. cbn [load_raw_files].
  set (p1 := path_join data_dir "co2_emissions_raw.csv").
  set (p2 := path_join data_dir "renewable_energy_raw.csv").
  set (p3 := path_join data_dir "electricity_prices_raw.csv").
  intros H. unfold bind in H.
  destruct (file_exists p1) eqn:E1, (file_exists p2) eqn:E2, (file_exists p3) eqn:E3;
    unfold bind in H |- *;
    (destruct s as [c|];
     [|rewrite ?load_co2_outcome, ?load_renewable_outcome, ?load_prices_outcome,
         ?etl_outcome in H; discriminate H]);
    repeat (rewrite ?load_co2_outcome, ?load_renewable_outcome, ?load_prices_outcome,
              ?etl_outcome in H; cbn [committed_as pending committed] in H;
            try match type of H with
                | context [server_files !! ?p] =>
                    destruct (server_files !! p) as [?records|] eqn:?L; [|discriminate H]
                end);
    cbn zeta in H; injection H as <- <-;
    rerun_load load_co2_outcome; rerun_load load_renewable_outcome;
    rerun_load load_prices_outcome;
    unfold ret; reduce_tables;
    rewrite etl_outcome; reduce_tables; rewrite !upsert_facts_idempotent;
    reflexivity.
Qed.

End Server.

End SqlFacts.

(* --------------------------------------------------------------------- *)
(** ** High price events                                                  *)
(* --------------------------------------------------------------------- *)

Section DataQualityFacts.
Import Frame MLPipeline DataQuality.

(** Two rows of one hour in two areas.  The code marks the DK1 row alone
    (75 > 71.625, the 0.95 quantile of 7.5 and 75).  With the
    specification's example settings (30 days, multiplier 3) no row is a
    spike, whether or not the window holds the row itself. *)
Lemma price_spike_counterexample :
  (exists t, quantile (95 # 100) (List.map SpotPriceDKK Samples.two_area_prices) = Some t
             /\ (t == 573 # 8)%Q) /\
  List.map (above_quantile Samples.two_area_prices) Samples.two_area_prices
    = [true; false] /\
  List.map (spec_is_price_spike Samples.thirty_days 3 true Samples.two_area_prices)
    Samples.two_area_prices = [false; false] /\
  List.map (spec_is_price_spike Samples.thirty_days 3 false Samples.two_area_prices)
    Samples.two_area_prices = [false; false].
Proof.
  split; [eexists; split; [vm_compute; reflexivity|reflexivity]|].
  repeat split; vm_compute; reflexivity.
Qed.

(** No setting of the window and the multiplier reproduces the code on
    these rows: the baseline is taken per price area, so the two rows
    always get the same flag. *)
Lemma no_setting_reproduces_quantile (window : Z) (spike_multiplier : Q) (inclusive : bool) :
  List.map (spec_is_price_spike window spike_multiplier inclusive Samples.two_area_prices)
    Samples.two_area_prices
  <> List.map (above_quantile Samples.two_area_prices) Samples.two_area_prices.
Proof.
  replace (List.map (above_quantile Samples.two_area_prices) Samples.two_area_prices)
    with [true; false] by (vm_compute; reflexivity).
  unfold spec_is_price_spike, spec_rolling_baseline, Samples.two_area_prices,
    Samples.price_at. cbn [List.map List.filter price_PriceArea price_HourUTC SpotPriceEUR].
  rewrite !bool_decide_eq_true_2 by reflexivity.
  rewrite !(bool_decide_eq_false_2 (_ = _)) by discriminate.
  rewrite Z.leb_refl, Z.ltb_irrefl.
  destruct inclusive, (Samples.h0 - window <? Samples.h0);
    cbn [andb List.map List.filter SpotPriceEUR mean dropna omap id];
    try discriminate.
  intros Heq. injection Heq as H1 H2.
  apply Qltb_lt in H1. apply Qltb_ge in H2.
  unfold Qsum in *. cbn [fold_left length Z.of_nat Pos.of_succ_nat] in *.
  change (inject_Z (Z.of_nat 1)) with 1%Q in *. unfold Qdiv in *.
  change (/ 1)%Q with 1%Q in *. lra.
Qed.

End DataQualityFacts.

(* --------------------------------------------------------------------- *)
(** ** The loader on a small warehouse                                    *)
(* --------------------------------------------------------------------- *)

Section LoaderExamples.
Import Py Warehouse Store Sql.
Local Open Scope string_scope.

(** Three records, two keys: two rows are persisted, and loading the file
    again persists none. *)
Example load_skips_repeated_key :
  let load := load_csv_to_raw_table (sql_function Samples.server_files) always_commits
                "data/co2_emissions_raw.csv" "raw.co2_emissions"
                "raw.load_co2_emissions_from_csv" in
  (load (committed_as Samples.empty_database)).1 = Ok 2 /\
  (load (load (committed_as Samples.empty_database)).2).1 = Ok 0 /\
  (load (load (committed_as Samples.empty_database)).2).2
    = (load (committed_as Samples.empty_database)).2.
Proof. repeat split; vm_compute; reflexivity. Qed.

Lemma raw_staging_stays_unique_witness :
  staging_unique Samples.empty_database /\
  let (r, s') := load_csv_to_raw_table (sql_function Samples.server_files) always_commits
                   "data/co2_emissions_raw.csv" "raw.co2_emissions"
                   "raw.load_co2_emissions_from_csv"
                   (Some {| committed := Samples.empty_database;
                            pending := Samples.empty_database |}) in
  (exists c', s' = Some c' /\ staging_unique (committed c') /\ staging_unique (pending c')) /\
  (returned r ->
   load_csv_to_raw_table (sql_function Samples.server_files) always_commits
     "data/co2_emissions_raw.csv" "raw.co2_emissions"
     "raw.load_co2_emissions_from_csv" s' = (Ok 0, s')).
Proof.
  assert (Hu : staging_unique Samples.empty_database)
    by (repeat split; simpl; constructor).
  split; [exact Hu|].
  apply (raw_staging_stays_unique Samples.server_files always_commits
           "data/co2_emissions_raw.csv"
           "raw.co2_emissions" "raw.load_co2_emissions_from_csv"
           {| committed := Samples.empty_database; pending := Samples.empty_database |});
    exact Hu.
Defined.

(** The first run loads two raw rows and writes one fact; the second run
    repeats nothing. *)
Example first_run_loads_two_rows :
  Samples.first_run.1 = Ok (2, "ETL pipeline completed") /\
  (exists c, Samples.first_run.2 = Some c /\ size (fact_co2_emissions (committed c)) = 1%nat).
Proof.
  split; [vm_compute; reflexivity|].
  destruct Samples.first_run.2 as [c|] eqn:E; [|vm_compute in E; discriminate E].
  exists c. split; [reflexivity|].
  assert (Hs : (from_option (fun c => size (fact_co2_emissions (committed c))) O Samples.first_run.2)
               = 1%nat) by (vm_compute; reflexivity).
  rewrite E in Hs. exact Hs.
Qed.

Lemma pipeline_rerun_is_idempotent_witness :
  run_pipeline Samples.server_files Samples.one_fact_per_row Samples.file_exists "data"
    Samples.first_run.2 = (Ok (0, "ETL pipeline completed"), Samples.first_run.2).
Proof.
  apply (pipeline_rerun_is_idempotent Samples.server_files Samples.one_fact_per_row
           Samples.file_exists "data" (committed_as Samples.empty_database) Samples.first_run.2
           (2, "ETL pipeline completed")).
  vm_compute. reflexivity.
Defined.

End LoaderExamples.

(* ===================================================================== *)
(** * Part II, continued - further properties of the sources             *)
(* ===================================================================== *)

(* --------------------------------------------------------------------- *)
(** ** Extraction: what is written, and where                             *)
(* --------------------------------------------------------------------- *)

Section ExtractionFiles.
Import Py Extraction.

Variable server : nat -> request -> http_outcome.
Variable now output_dir : string.

(** X1: a fetch that is answered with a JSON object holding one or more
    records returns exactly those records and stores exactly them in the
    dataset's CSV file, replacing what the file held; the log file
    receives the two lines of the call, and no other file changes. *)
Theorem extract_dataset_stores_records (dataset file_name start_date end_date : string)
    (w : world) (code : Z) (result : option (list record)) (r : record)
    (records : list record) :
  server (length (requests w)) (dataset_request dataset start_date end_date)
    = Response code (JsonObject result (Some (r :: records))) ->
  status_ok code ->
  exists w',
    extract_dataset server output_dir dataset file_name start_date end_date w
      = (Ok (r :: records), w') /\
    files w' !! path_join output_dir file_name = Some (CsvFile (r :: records)) /\
    (forall p, p <> path_join output_dir file_name -> p <> log_file ->
               files w' !! p = files w !! p) /\
    log w' = log w ++ [ (INFO, Extracting dataset start_date end_date);
                        (INFO, Saved (length (r :: records))
                                 (path_join output_dir file_name)) ].
Proof.
  intros Hresp Hok. unfold status_ok in Hok.
  unfold extract_dataset, try_except, bind, session_get, logger. cbn [requests].
  rewrite Hresp, Hok. simpl.
  eexists. split; [reflexivity|]. simpl. split; [apply lookup_insert_eq|]. split.
  - intros p Hp _. apply lookup_insert_ne. congruence.
  - rewrite <- app_assoc. reflexivity.
Qed.

(** X2: an answer without records (no 'records' entry, or an empty list)
    gives the empty frame and writes no data file: a CSV file left by an
    earlier extraction stays as it is.  The log file receives the line
    of the request and a warning. *)
Theorem extract_dataset_without_records (dataset file_name start_date end_date : string)
    (w : world) (code : Z) (result records : option (list record)) :
  server (length (requests w)) (dataset_request dataset start_date end_date)
    = Response code (JsonObject result records) ->
  status_ok code ->
  records = None \/ records = Some [] ->
  extract_dataset server output_dir dataset file_name start_date end_date w
    = (Ok [], {| requests := requests w ++ [dataset_request dataset start_date end_date];
                 files := files w;
                 log := log w ++ [ (INFO, Extracting dataset start_date end_date);
                                   (WARNING, No_data_found dataset) ] |}).
Proof.
  intros Hresp Hok Hrec. unfold status_ok in Hok.
  unfold extract_dataset, try_except, bind, session_get, logger. cbn [requests].
  rewrite Hresp, Hok.
  destruct Hrec as [-> | ->]; simpl; rewrite <- app_assoc; reflexivity.
Qed.

(** An extraction changes at most its own file, and adds to the log. *)
Lemma extract_dataset_files (dataset file_name start_date end_date : string) (w : world) :
  exists df w',
    extract_dataset server output_dir dataset file_name start_date end_date w = (Ok df, w') /\
    requests w' = requests w ++ [dataset_request dataset start_date end_date] /\
    (fetch_fails server (length (requests w)) (dataset_request dataset start_date end_date) ->
     df = []) /\
    (files w' = files w \/
     files w' = <[path_join output_dir file_name := CsvFile df]> (files w)) /\
    (exists lines, log w' = log w ++ lines).
Proof.
  unfold extract_dataset, try_except, bind, session_get, logger, fetch_fails.
  cbn [requests].
  destruct (server (length (requests w)) (dataset_request dataset start_date end_date))
    as [|code body]; simpl.
  - eexists _, _. repeat split; auto. rewrite <- app_assoc. eauto.
  - destruct ((400 <=? code) && (code <? 600))%Z; simpl.
    + eexists _, _. repeat split; auto. rewrite <- app_assoc. eauto.
    + destruct body as [| |result [[|r records]|]]; simpl;
        eexists _, _; (split; [reflexivity|]); (split; [reflexivity|]);
        (split; [intros Hf; first [reflexivity | destruct Hf; discriminate]|]);
        (split; [auto|]); rewrite <- app_assoc; eauto.
Qed.

Lemma get_dataset_list_files (w : world) :
  exists l w', get_dataset_list server output_dir w = (Ok l, w') /\
    requests w' = requests w ++ [dataset_list_request] /\
    (files w' = files w \/
     exists data, files w' = <[path_join output_dir "available_datasets.json"
                               := DatasetListFile data]> (files w)) /\
    (exists lines, log w' = log w ++ lines).
Proof.
  unfold get_dataset_list, try_except, bind, session_get, logger. cbn [requests].
  destruct (server (length (requests w)) dataset_list_request) as [|code body]; simpl.
  - eexists _, _. repeat split; eauto.
  - destruct ((400 <=? code) && (code <? 600))%Z; simpl.
    + eexists _, _. repeat split; eauto.
    + destruct body as [| |result records]; simpl; eexists _, _;
        (split; [reflexivity|]); (split; [reflexivity|]); eauto.
Qed.

(** The steps of a full run, with the world after each. *)
Lemma run_full_extraction_steps (start_date end_date : string) (w : world) :
  let started := {| requests := requests w; files := files w;
                    log := log w ++ [(INFO, Starting_full_extraction)] |} in
  exists l d1 d2 d3 d4 w0 w1 w2 w3 w4,
    get_dataset_list server output_dir started = (Ok l, w0) /\
    extract_electricity_data server output_dir start_date end_date w0 = (Ok d1, w1) /\
    extract_co2_emissions_data server output_dir start_date end_date w1 = (Ok d2, w2) /\
    extract_renewable_energy_data server output_dir start_date end_date w2 = (Ok d3, w3) /\
    extract_electricity_prices server output_dir start_date end_date w3 = (Ok d4, w4) /\
    let s := {| extraction_date := now;
                date_range := (start_date ++ " to " ++ end_date)%string;
                n_electricity_balance := length d1;
                n_co2_emissions := length d2;
                n_renewable_energy := length d3;
                n_electricity_prices := length d4;
                total_records := (length d1 + length d2 + length d3 + length d4)%nat |} in
    run_full_extraction server now output_dir start_date end_date w
      = (Ok s, {| requests := requests w4;
                  files := <[path_join output_dir "extraction_summary.json" := SummaryFile s]>
                             (files w4);
                  log := log w4 ++ [(INFO, Extraction_completed (total_records s))] |}).
Proof.
  intros started.
  destruct (get_dataset_list_files started) as (l & w0 & E0 & _).
  destruct (extract_dataset_files "ElectricityBalance" "electricity_balance_raw.csv"
              start_date end_date w0) as (d1 & w1 & E1 & _).
  destruct (extract_dataset_files "CO2Emis" "co2_emissions_raw.csv"
              start_date end_date w1) as (d2 & w2 & E2 & _).
  destruct (extract_dataset_files "ProductionConsumptionSettlement"
              "renewable_energy_raw.csv" start_date end_date w2) as (d3 & w3 & E3 & _).
  destruct (extract_dataset_files "Elspotprices" "electricity_prices_raw.csv"
              start_date end_date w3) as (d4 & w4 & E4 & _).
  exists l, d1, d2, d3, d4, w0, w1, w2, w3, w4.
  repeat (split; [assumption|]).
  exact (run_full_extraction_unfold server now output_dir _ _ _ _ _ _ _ _ _ _ _ _ _
           E0 E1 E2 E3 E4).
Qed.

(** X3: the summary a full run returns is the one it stores in
    extraction_summary.json; its total is the sum of the four dataset
    counts and its date is the clock's. *)
Theorem run_full_extraction_summary (start_date end_date : string) (w : world) :
  exists s w',
    run_full_extraction server now output_dir start_date end_date w = (Ok s, w') /\
    files w' !! path_join output_dir "extraction_summary.json" = Some (SummaryFile s) /\
    total_records s = (n_electricity_balance s + n_co2_emissions s
                       + n_renewable_energy s + n_electricity_prices s)%nat /\
    extraction_date s = now.
Proof.
  destruct (run_full_extraction_steps start_date end_date w)
    as (l & d1 & d2 & d3 & d4 & w0 & w1 & w2 & w3 & w4 & _ & _ & _ & _ & _ & E).
  cbv zeta in E. eexists _, _. split; [exact E|]. simpl.
  split; [apply lookup_insert_eq|]. split; reflexivity.
Qed.

(** X4: a full run writes to its six output files and to the log file
    only: every other path holds after the run what it held before, and
    the log has grown by the lines of the run, the first of which
    reports its start. *)
Theorem run_full_extraction_frame (start_date end_date : string) (w : world) (p : string) :
  ~ In p (run_outputs output_dir) ->
  p <> log_file ->
  let out := run_full_extraction server now output_dir start_date end_date w in
  files out.2 !! p = files w !! p /\
  exists lines, log out.2 = log w ++ (INFO, Starting_full_extraction) :: lines.
Proof.
  intros Hp _. unfold run_outputs in Hp. simpl in Hp.
  set (started := {| requests := requests w; files := files w;
                     log := log w ++ [(INFO, Starting_full_extraction)] |}).
  destruct (get_dataset_list_files started) as (l & w0 & E0 & _ & F0 & (l0 & L0)).
  destruct (extract_dataset_files "ElectricityBalance" "electricity_balance_raw.csv"
              start_date end_date w0) as (d1 & w1 & E1 & _ & _ & F1 & (l1 & L1)).
  destruct (extract_dataset_files "CO2Emis" "co2_emissions_raw.csv"
              start_date end_date w1) as (d2 & w2 & E2 & _ & _ & F2 & (l2 & L2)).
  destruct (extract_dataset_files "ProductionConsumptionSettlement"
              "renewable_energy_raw.csv" start_date end_date w2)
    as (d3 & w3 & E3 & _ & _ & F3 & (l3 & L3)).
  destruct (extract_dataset_files "Elspotprices" "electricity_prices_raw.csv"
              start_date end_date w3) as (d4 & w4 & E4 & _ & _ & F4 & (l4 & L4)).
  cbv zeta.
  rewrite (run_full_extraction_unfold server now output_dir _ _ _ _ _ _ _ _ _ _ _ _ _
             E0 E1 E2 E3 E4).
  cbn [snd files log]. split.
  - rewrite lookup_insert_ne by tauto.
    assert (H4 : files w4 !! p = files w3 !! p)
      by (destruct F4 as [-> | ->]; [reflexivity|apply lookup_insert_ne; tauto]).
    assert (H3 : files w3 !! p = files w2 !! p)
      by (destruct F3 as [-> | ->]; [reflexivity|apply lookup_insert_ne; tauto]).
    assert (H2 : files w2 !! p = files w1 !! p)
      by (destruct F2 as [-> | ->]; [reflexivity|apply lookup_insert_ne; tauto]).
    assert (H1 : files w1 !! p = files w0 !! p)
      by (destruct F1 as [-> | ->]; [reflexivity|apply lookup_insert_ne; tauto]).
    assert (H0 : files w0 !! p = files w !! p)
      by (destruct F0 as [-> | [data ->]]; [reflexivity|apply lookup_insert_ne; tauto]).
    congruence.
  - rewrite L4, L3, L2, L1, L0. unfold started. cbn [log].
    rewrite <- !app_assoc. cbn [app]. eauto.
Qed.

(** X5: a dataset whose fetch fails is counted as 0 in the summary, and
    the run still returns; here for CO2, the third request of the run. *)
Theorem failed_dataset_counts_zero (start_date end_date : string) (w : world) :
  fetch_fails server (length (requests w) + 2)
    (dataset_request "CO2Emis" start_date end_date) ->
  exists s w',
    run_full_extraction server now output_dir start_date end_date w = (Ok s, w') /\
    n_co2_emissions s = O /\
    total_records s = (n_electricity_balance s + n_renewable_energy s
                       + n_electricity_prices s)%nat.
Proof.
  intros Hfail.
  set (started := {| requests := requests w; files := files w;
                     log := log w ++ [(INFO, Starting_full_extraction)] |}).
  destruct (get_dataset_list_files started) as (l & w0 & E0 & R0 & _).
  destruct (extract_dataset_files "ElectricityBalance" "electricity_balance_raw.csv"
              start_date end_date w0) as (d1 & w1 & E1 & R1 & _).
  destruct (extract_dataset_files "CO2Emis" "co2_emissions_raw.csv"
              start_date end_date w1) as (d2 & w2 & E2 & R2 & Hd2 & _).
  destruct (extract_dataset_files "ProductionConsumptionSettlement"
              "renewable_energy_raw.csv" start_date end_date w2) as (d3 & w3 & E3 & _).
  destruct (extract_dataset_files "Elspotprices" "electricity_prices_raw.csv"
              start_date end_date w3) as (d4 & w4 & E4 & _).
  assert (Hn : length (requests w1) = (length (requests w) + 2)%nat)
    by (rewrite R1, R0, !length_app; simpl; lia).
  rewrite Hn in Hd2. specialize (Hd2 Hfail). subst d2.
  eexists _, _.
  split; [exact (run_full_extraction_unfold server now output_dir _ _ _ _ _ _ _ _ _ _ _ _ _
                   E0 E1 E2 E3 E4)|].
  simpl. split; [reflexivity|]. lia.
Qed.

End ExtractionFiles.

(* --------------------------------------------------------------------- *)
(** ** The loading sequence of main                                       *)
(* --------------------------------------------------------------------- *)

Section LoaderSequence.
Import Py Warehouse.
Context {DB : Type}.

Variable sql_function : string -> string -> DB -> executed DB Z.
Variable etl_function : DB -> executed DB string.
Variable commit_error : DB -> option string.
Variable file_exists : string -> bool.
Variable data_dir : string.

Lemma clean_rolled_back (c : connection DB) : clean (rolled_back c).
Proof. exists (committed c). reflexivity. Qed.

Lemma clean_committed_as (db : DB) : clean (committed_as db).
Proof. exists db. reflexivity. Qed.

(** One load on an open connection ends on a clean connection. *)
Lemma load_csv_to_raw_table_clean (csv_file_path table_name function_name : string)
    (c : connection DB) :
  clean (load_csv_to_raw_table sql_function commit_error csv_file_path table_name
           function_name (Some c)).2.
Proof.
  rewrite load_csv_to_raw_table_outcome.
  destruct (sql_function function_name csv_file_path (pending c)) as [msg d|db' [n|]];
    try apply clean_rolled_back.
  destruct (commit_error db'); [apply clean_rolled_back|apply clean_committed_as].
Qed.

Lemma run_etl_pipeline_clean (c : connection DB) :
  clean (run_etl_pipeline etl_function commit_error (Some c)).2.
Proof.
  rewrite run_etl_pipeline_outcome.
  destruct (etl_function (pending c)) as [msg d|db' [n|]]; try apply clean_rolled_back.
  destruct (commit_error db'); [apply clean_rolled_back|apply clean_committed_as].
Qed.

(** The loop over the files either touches nothing and returns, or ends
    on a clean connection. *)
Lemma load_raw_files_clean (jobs : list (string * (string * string))) (total : Z)
    (c : connection DB) :
  let out := load_raw_files sql_function commit_error file_exists data_dir jobs total
               (Some c) in
  (out = (Ok total, Some c)) \/ clean out.2.
Proof.
  revert total c. induction jobs as [|[csv_file [table_name function_name]] jobs IH];
    intros total c; cbn [load_raw_files].
  - left. reflexivity.
  - destruct (file_exists (path_join data_dir csv_file)); [|apply IH].
    right. unfold bind.
    pose proof (load_csv_to_raw_table_clean (path_join data_dir csv_file) table_name
                  function_name c) as Hc.
    destruct (load_csv_to_raw_table sql_function commit_error
                (path_join data_dir csv_file) table_name function_name (Some c))
      as [[n|e] s']; cbn [snd] in Hc; [|exact Hc].
    destruct Hc as [db ->].
    destruct (IH (total + n)%Z {| committed := db; pending := db |}) as [E|E].
    + unfold committed_as. rewrite E. apply clean_committed_as.
    + exact E.
Qed.

(** X6: whatever the SQL functions, the ETL and the commits do, and
    whether the sequence returns or raises, the loading sequence of main
    on an open connection ends with a connection that holds no
    uncommitted change. *)
Theorem load_and_transform_ends_clean (c : connection DB) :
  clean (load_and_transform sql_function etl_function commit_error file_exists data_dir
           (Some c)).2.
Proof.
  unfold load_and_transform. unfold bind at 1.
  destruct (load_raw_files_clean csv_files 0 c) as [E|E]; cbv zeta in E.
  - rewrite E. unfold bind.
    pose proof (run_etl_pipeline_clean c) as Hc.
    destruct (run_etl_pipeline etl_function commit_error (Some c)) as [[r|e] s']; exact Hc.
  - destruct (load_raw_files sql_function commit_error file_exists data_dir csv_files 0
                (Some c)) as [[n|e] s']; cbn [snd] in E; [|exact E].
    destruct E as [db ->]. unfold bind.
    pose proof (run_etl_pipeline_clean {| committed := db; pending := db |}) as Hc.
    unfold committed_as.
    destruct (run_etl_pipeline etl_function commit_error
                (Some {| committed := db; pending := db |})) as [[r|e] s']; exact Hc.
Qed.

(** X7: the loading sequence is not atomic across files.  When the CO2
    file loads and commits and the load of the renewable file then fails,
    the sequence raises that error, the price file and the ETL are not
    run, and the CO2 rows stay committed. *)
Theorem earlier_load_stays_committed (c : connection DB) (db1 dirty : DB) (n1 : Z)
    (msg : string) :
  file_exists (path_join data_dir "co2_emissions_raw.csv") = true ->
  file_exists (path_join data_dir "renewable_energy_raw.csv") = true ->
  sql_function "raw.load_co2_emissions_from_csv"
    (path_join data_dir "co2_emissions_raw.csv") (pending c) = Fetched db1 (Some n1) ->
  commit_error db1 = None ->
  sql_function "raw.load_renewable_energy_from_csv"
    (path_join data_dir "renewable_energy_raw.csv") db1 = Failed msg dirty ->
  load_and_transform sql_function etl_function commit_error file_exists data_dir (Some c)
    = (Raise (DatabaseError msg), committed_as db1).
Proof.
  intros F1 F2 S1 C1 S2.
  unfold load_and_transform, csv_files. cbn [load_raw_files]. rewrite F1, F2.
  unfold bind. rewrite load_csv_to_raw_table_outcome, S1, C1.
  unfold committed_as. rewrite load_csv_to_raw_table_outcome. cbn [pending]. rewrite S2.
  reflexivity.
Qed.

End LoaderSequence.

(* --------------------------------------------------------------------- *)
(** ** Quality checks: what the counts cover                              *)
(* --------------------------------------------------------------------- *)

Section QualityCounts.
Import Py Warehouse Store.

Lemma filter_disjoint_length {A} (f g : A -> bool) (l : list A) :
  (forall x, f x && g x = false) ->
  (length (List.filter f l) + length (List.filter g l) <= length l)%nat.
Proof.
  intros Hd. induction l as [|x l IH]; simpl; [lia|].
  specialize (Hd x). destruct (f x), (g x); simpl in *; try discriminate; lia.
Qed.

(** X8: a CO2 fact whose value is NULL is counted as null and never as
    out of range (a comparison with NULL is not true), so the two CO2
    counts of the quality report together never exceed the number of CO2
    facts. *)
Theorem co2_counts_are_disjoint (db : database) :
  (null_co2_values db + invalid_co2_values db <= size (fact_co2_emissions db))%nat.
Proof.
  unfold null_co2_values, invalid_co2_values, count_where.
  rewrite <- (length_map_to_list (fact_co2_emissions db)).
  apply filter_disjoint_length. intros [k f]. simpl.
  destruct (co2_emission_g_kwh f) as [v|]; [|reflexivity].
  rewrite bool_decide_eq_false_2 by discriminate. reflexivity.
Qed.

End QualityCounts.

(* --------------------------------------------------------------------- *)
(** ** The 0.95 quantile and the high price events                        *)
(* --------------------------------------------------------------------- *)

Section QuantileFacts.
Import Frame MLPipeline DataQuality.

Lemma convex_lower (m a b f : Q) :
  (m <= a -> m <= b -> 0 <= f -> f <= 1 -> m <= a + (b - a) * f)%Q.
Proof. intros. nra. Qed.

Lemma convex_upper (m a b f : Q) :
  (a <= m -> b <= m -> 0 <= f -> f <= 1 -> a + (b - a) * f <= m)%Q.
Proof. intros. nra. Qed.

Lemma Qfloor_frac (x : Q) : (0 <= x - inject_Z (Qfloor x) /\ x - inject_Z (Qfloor x) <= 1)%Q.
Proof.
  pose proof (Qfloor_le x). pose proof (Qlt_floor x).
  rewrite inject_Z_plus in H0. change (inject_Z 1) with 1%Q in H0. split; lra.
Qed.

Lemma nth_In_default {A} (n : nat) (l : list A) (d : A) :
  In (nth n l d) l \/ nth n l d = d.
Proof. destruct (nth_in_or_default n l d); auto. Qed.


Lemma In_dropna (v : Q) (xs : list cell) : In v (dropna xs) <-> In (Some v) xs.
Proof.
  unfold dropna. rewrite <- !list_elem_of_In, list_elem_of_omap. split.
  - intros (c & Hc & Hid). simpl in Hid. subst c. exact Hc.
  - intros H. exists (Some v). auto.
Qed.

(** The quantile is a value between two of the values present. *)
Lemma quantile_convex (q : Q) (xs : list cell) (t : Q) :
  quantile q xs = Some t ->
  exists a b f, In (Some a) xs /\ In (Some b) xs /\ (0 <= f)%Q /\ (f <= 1)%Q /\
                t = (a + (b - a) * f)%Q.
Proof.
  unfold quantile.
  set (vs := sort_by Qle_bool (dropna xs)).
  assert (Hvs : forall v, In v vs -> In (Some v) xs).
  { intros v Hv. apply In_dropna.
    apply (Permutation_in _ (sort_by_perm Qle_bool (dropna xs))), Hv. }
  destruct vs as [|v0 vs'] eqn:E; [discriminate|].
  intros [= <-].
  set (pos := (q * inject_Z (Z.of_nat (length (v0 :: vs')) - 1))%Q).
  set (a := nth (Z.to_nat (Qfloor pos)) (v0 :: vs') v0).
  set (b := nth (Z.to_nat (Qfloor pos + 1)) (v0 :: vs') a).
  assert (Ha : In a (v0 :: vs')).
  { destruct (nth_In_default (Z.to_nat (Qfloor pos)) (v0 :: vs') v0) as [H|H];
      [exact H|]. fold a in H. rewrite H. left. reflexivity. }
  assert (Hb : In b (v0 :: vs')).
  { destruct (nth_In_default (Z.to_nat (Qfloor pos + 1)) (v0 :: vs') a) as [H|H];
      [exact H|]. fold b in H. rewrite H. exact Ha. }
  destruct (Qfloor_frac pos).
  exists a, b, (pos - inject_Z (Qfloor pos))%Q. auto 6.
Qed.

(** X9: a row whose DKK price is the lowest of the frame is never a high
    price event; so a frame whose prices are all equal has none. *)
Theorem lowest_price_is_never_high (df : list price_record) (r : price_record) (p : Q) :
  SpotPriceDKK r = Some p ->
  (forall r' p', In r' df -> SpotPriceDKK r' = Some p' -> (p <= p')%Q) ->
  ~ In r (high_prices_dkk df).
Proof.
  intros Hp Hmin Hin. unfold high_prices_dkk in Hin.
  apply filter_In in Hin as [_ Hflag]. unfold above_quantile in Hflag.
  rewrite Hp in Hflag.
  destruct (quantile (95 # 100) (List.map SpotPriceDKK df)) as [t|] eqn:Hq;
    [|discriminate].
  apply Qltb_lt in Hflag.
  destruct (quantile_convex _ _ _ Hq) as (a & b & f & Ha & Hb & Hf0 & Hf1 & ->).
  apply in_map_iff in Ha as (ra & Hra & Hina).
  apply in_map_iff in Hb as (rb & Hrb & Hinb).
  pose proof (Hmin ra a Hina Hra). pose proof (Hmin rb b Hinb Hrb).
  pose proof (convex_lower p a b f). lra.
Qed.

Lemma Qle_bool_total (a b : Q) : Qle_bool a b = true \/ Qle_bool b a = true.
Proof.
  destruct (Qlt_le_dec b a) as [H|H].
  - right. apply Qle_bool_iff. lra.
  - left. apply Qle_bool_iff. exact H.
Qed.

Lemma sort_by_Qle_StronglySorted (l : list Q) :
  StronglySorted Qle (sort_by Qle_bool l).
Proof.
  apply Sorted_StronglySorted; [intros x y z; apply Qle_trans|].
  pose proof (sort_by_Sorted Qle_bool l Qle_bool_total) as Hs.
  induction Hs as [|x l' Hs IH Hhd]; constructor; [exact IH|].
  destruct Hhd as [|y l'' Hxy]; constructor. apply Qle_bool_iff, Hxy.
Qed.

Lemma sorted_nth_le (vs : list Q) (d : Q) (i j : nat) :
  StronglySorted Qle vs -> (i <= j < length vs)%nat -> (nth i vs d <= nth j vs d)%Q.
Proof.
  intros Hs. revert i j. induction Hs as [|x vs Hs IH Hall]; intros i j Hij; simpl in *.
  - lia.
  - destruct i as [|i], j as [|j]; try lia.
    + lra.
    + rewrite List.Forall_forall in Hall. apply Hall, nth_In. lia.
    + apply IH. lia.
Qed.

Lemma sorted_above_count (vs : list Q) (d : Q) (i : nat) :
  StronglySorted Qle vs -> (i < length vs)%nat ->
  (length (List.filter (Qltb (nth i vs d)) vs) + i < length vs)%nat.
Proof.
  intros Hs. revert i. induction Hs as [|x vs Hs IH Hall]; intros i Hi; simpl in *.
  - lia.
  - destruct i as [|i].
    + replace (Qltb x x) with false by (symmetry; apply Qltb_ge; lra).
      pose proof (filter_length_le (Qltb x) vs). lia.
    + assert (Hx : (x <= nth i vs d)%Q).
      { rewrite List.Forall_forall in Hall. apply Hall, nth_In. lia. }
      apply Qltb_ge in Hx. rewrite Hx. specialize (IH i). lia.
Qed.

Lemma filter_length_mono {A} (f g : A -> bool) (l : list A) :
  (forall x, f x = true -> g x = true) ->
  (length (List.filter f l) <= length (List.filter g l))%nat.
Proof.
  intros Himp. induction l as [|x l IH]; simpl; [lia|].
  destruct (f x) eqn:Ef.
  - rewrite (Himp x Ef). simpl. lia.
  - destruct (g x); simpl; lia.
Qed.

Lemma filter_cells_length (t : Q) (xs : list cell) :
  length (List.filter (fun c => match c with Some p => Qltb t p | None => false end) xs)
  = length (List.filter (Qltb t) (dropna xs)).
Proof.
  induction xs as [|[p|] xs IH]; simpl; [reflexivity| |exact IH].
  destruct (Qltb t p); simpl; lia.
Qed.

Lemma length_dropna (xs : list cell) : (length (dropna xs) <= length xs)%nat.
Proof. induction xs as [|[p|] xs IH]; simpl in *; lia. Qed.

(** The 0.95 quantile is at least the value at position
    floor(0.95 (n - 1)) of the sorted values. *)
Lemma quantile_95_position (xs : list cell) (t : Q) :
  quantile (95 # 100) xs = Some t ->
  let vs := sort_by Qle_bool (dropna xs) in
  exists i, (i < length vs)%nat /\ (length vs + 18 >= 20 * (length vs - 1 - i))%nat /\
            (nth i vs 0 <= t)%Q.
Proof.
  intros Hq vs. unfold quantile in Hq. fold vs in Hq.
  pose proof (sort_by_Qle_StronglySorted (dropna xs)) as Hs. fold vs in Hs.
  destruct vs as [|v0 vs'] eqn:E; [discriminate|].
  remember (length (v0 :: vs')) as n eqn:En.
  assert (Hn : (1 <= n)%nat) by (subst n; simpl; lia).
  remember ((95 # 100) * inject_Z (Z.of_nat n - 1))%Q as pos eqn:Epos.
  assert (Hfl : Qfloor pos = (95 * (Z.of_nat n - 1) / 100)%Z) by (subst pos; reflexivity).
  assert (Hlo' : (100 * Qfloor pos <= 95 * (Z.of_nat n - 1))%Z)
    by (rewrite Hfl; apply Z.mul_div_le; lia).
  assert (Hhi' : (95 * (Z.of_nat n - 1) < 100 * (Qfloor pos + 1))%Z).
  { rewrite Hfl. pose proof (Z.mul_succ_div_gt (95 * (Z.of_nat n - 1)) 100). lia. }
  destruct (Qfloor_frac pos) as [Hf0 Hf1].
  remember (Qfloor pos) as lo eqn:Elo. clear Hfl Epos Elo.
  assert (H0 : (0 <= lo)%Z) by lia.
  replace (Z.to_nat (lo + 1)) with (S (Z.to_nat lo)) in Hq by lia.
  remember (nth (Z.to_nat lo) (v0 :: vs') v0) as a eqn:Ea.
  remember (nth (S (Z.to_nat lo)) (v0 :: vs') a) as b eqn:Eb.
  assert (Ht : t = (a + (b - a) * (pos - inject_Z lo))%Q) by congruence.
  clear Hq.
  assert (Hab : (a <= b)%Q).
  { destruct (Nat.lt_ge_cases (S (Z.to_nat lo)) n) as [Hlt|Hge].
    - rewrite Eb, (nth_indep _ a v0), Ea by (rewrite <- En; exact Hlt).
      apply sorted_nth_le; [exact Hs|]. rewrite <- En. lia.
    - rewrite Eb, nth_overflow by (rewrite <- En; exact Hge). lra. }
  exists (Z.to_nat lo). split; [lia|]. split; [lia|].
  rewrite (nth_indep _ 0%Q v0), <- Ea by (rewrite <- En; lia).
  rewrite Ht. apply convex_lower; lra.
Qed.

(** X10: the high price events are at most about one row in twenty:
    20 times their number is at most the number of rows plus 18.  A frame
    of one row has none. *)
Theorem high_prices_at_most_five_percent (df : list price_record) :
  (20 * length (high_prices_dkk df) <= length df + 18)%nat.
Proof.
  unfold high_prices_dkk.
  destruct (quantile (95 # 100) (List.map SpotPriceDKK df)) as [t|] eqn:Hq.
  - assert (Hlen : length (List.filter (above_quantile df) df)
                   = length (List.filter (Qltb t) (dropna (List.map SpotPriceDKK df)))).
    { rewrite <- filter_cells_length.
      unfold above_quantile. rewrite Hq. clear Hq.
      induction df as [|r df IH]; simpl; [reflexivity|].
      destruct (SpotPriceDKK r) as [p|]; [|exact IH].
      destruct (Qltb t p); simpl; rewrite IH; reflexivity. }
    rewrite Hlen.
    destruct (quantile_95_position _ _ Hq) as (i & Hi & Hfrac & Hle).
    set (ds := dropna (List.map SpotPriceDKK df)) in *.
    rewrite <- (filter_length_perm (Qltb t) _ _ (sort_by_perm Qle_bool ds)).
    pose proof (sort_by_Qle_StronglySorted ds) as Hs.
    pose proof (sorted_above_count _ 0%Q i Hs Hi) as Hc.
    assert (Hmono : (length (List.filter (Qltb t) (sort_by Qle_bool ds))
                     <= length (List.filter (Qltb (nth i (sort_by Qle_bool ds) 0%Q))
                                  (sort_by Qle_bool ds)))%nat).
    { apply filter_length_mono. intros x Hx. apply Qltb_lt in Hx. apply Qltb_lt. lra. }
    assert (Hn : (length (sort_by Qle_bool ds) <= length df)%nat).
    { rewrite (Permutation_length (sort_by_perm Qle_bool ds)). unfold ds.
      pose proof (length_dropna (List.map SpotPriceDKK df)) as Hd.
      rewrite length_map in Hd. exact Hd. }
    lia.
  - assert (Hnil : List.filter (above_quantile df) df = []).
    { unfold above_quantile. rewrite Hq. clear Hq.
      induction df as [|r df IH]; simpl; [reflexivity|].
      destruct (SpotPriceDKK r); exact IH. }
    rewrite Hnil. simpl. lia.
Qed.

End QuantileFacts.

(* --------------------------------------------------------------------- *)
(** ** High price events: one threshold for the whole frame               *)
(* --------------------------------------------------------------------- *)

Section GlobalThreshold.
Import Frame MLPipeline DataQuality.

(** With the exact interpolation these are [quantile] and
    [high_prices_dkk]. *)
Lemma quantile_linear (q : Q) (xs : list cell) : quantile_with linear q xs = quantile q xs.
Proof. reflexivity. Qed.

Lemma high_prices_dkk_linear (df : list price_record) :
  high_prices_dkk_with linear df = high_prices_dkk df.
Proof. reflexivity. Qed.

Lemma linear_stays_between : stays_between linear.
Proof.
  intros a b gamma Hab H0 H1. unfold linear. split.
  - apply convex_lower; lra.
  - apply convex_upper; lra.
Qed.

Variable interpolate : interpolation.
Hypothesis interpolate_between : stays_between interpolate.

Lemma quantile_with_neighbours (df : list price_record) (t : Q) :
  quantile_with interpolate (95 # 100) (List.map SpotPriceDKK df) = Some t ->
  let vs := sorted_prices df in
  let lo := quantile_position (length vs) in
  (lo < length vs)%nat /\
  (nth lo vs 0 <= t)%Q /\ (t <= nth (S lo) vs (nth lo vs 0))%Q.
Proof.
  intros Hq vs lo. unfold quantile_with in Hq. fold (sorted_prices df) in Hq. fold vs in Hq.
  pose proof (sort_by_Qle_StronglySorted (dropna (List.map SpotPriceDKK df))) as Hs.
  fold (sorted_prices df) in Hs. fold vs in Hs.
  unfold lo, quantile_position. clear lo.
  destruct vs as [|v0 vs'] eqn:E; [discriminate|].
  remember (length (v0 :: vs')) as n eqn:En.
  assert (Hn : (1 <= n)%nat) by (subst n; simpl; lia).
  remember ((95 # 100) * inject_Z (Z.of_nat n - 1))%Q as pos eqn:Epos.
  assert (Hfl : Qfloor pos = (95 * (Z.of_nat n - 1) / 100)%Z) by (subst pos; reflexivity).
  assert (Hlo' : (100 * Qfloor pos <= 95 * (Z.of_nat n - 1))%Z)
    by (rewrite Hfl; apply Z.mul_div_le; lia).
  destruct (Qfloor_frac pos) as [Hf0 _].
  assert (Hf1 : (pos - inject_Z (Qfloor pos) < 1)%Q).
  { pose proof (Qlt_floor pos) as H. rewrite inject_Z_plus in H.
    change (inject_Z 1) with 1%Q in H. lra. }
  remember (Qfloor pos) as lo eqn:Elo.
  assert (H0 : (0 <= lo)%Z).
  { rewrite Hfl. apply Z.div_pos; lia. }
  clear Hfl Epos Elo.
  replace (Z.to_nat (lo + 1)) with (S (Z.to_nat lo)) in Hq by lia.
  assert (Hlt : (Z.to_nat lo < n)%nat) by lia.
  rewrite (nth_indep _ 0%Q v0) by (rewrite <- En; exact Hlt).
  remember (nth (Z.to_nat lo) (v0 :: vs') v0) as a eqn:Ea.
  remember (nth (S (Z.to_nat lo)) (v0 :: vs') a) as b eqn:Eb.
  assert (Ht : t = interpolate a b (pos - inject_Z lo)%Q) by congruence.
  clear Hq.
  assert (Hab : (a <= b)%Q).
  { destruct (Nat.lt_ge_cases (S (Z.to_nat lo)) n) as [Hlt'|Hge].
    - rewrite Eb, (nth_indep _ a v0), Ea by (rewrite <- En; exact Hlt').
      apply sorted_nth_le; [exact Hs|]. rewrite <- En. lia.
    - rewrite Eb, nth_overflow by (rewrite <- En; exact Hge). lra. }
  split; [exact Hlt|]. rewrite Ht.
  apply interpolate_between; assumption.
Qed.

Lemma quantile_with_None (df : list price_record) :
  quantile_with interpolate (95 # 100) (List.map SpotPriceDKK df) = None ->
  forall r p, In r df -> SpotPriceDKK r <> Some p.
Proof.
  unfold quantile_with. intros Hq r p Hin Hp.
  assert (Hv : In p (sort_by Qle_bool (dropna (List.map SpotPriceDKK df)))).
  { apply (Permutation_in _ (Permutation_sym (sort_by_perm Qle_bool _))).
    apply In_dropna. rewrite <- Hp. apply in_map, Hin. }
  destruct (sort_by Qle_bool (dropna (List.map SpotPriceDKK df))); [destruct Hv|discriminate].
Qed.

(** C9 (amended): the sources derive no flag from a rolling baseline and
    a multiplier.  The one detection of extreme prices compares the DKK
    spot price of a row with the 0.95 quantile of the DKK spot prices of
    the whole frame, all price areas and hours together, a value between
    the sorted prices at position floor(0.95 (n - 1)) and at the next
    position.  So every row marked lies strictly above the first of the
    two, every row strictly above the second is marked, and a row priced
    at or above a marked row is marked, whatever its price area and hour;
    nothing in it is configurable. *)
Theorem high_price_events_global_threshold (df : list price_record) :
  let vs := sorted_prices df in
  let lo := quantile_position (length vs) in
  (forall r, In r (high_prices_dkk_with interpolate df) ->
     In r df /\ exists p, SpotPriceDKK r = Some p /\ (nth lo vs 0 < p)%Q) /\
  (forall r p, In r df -> SpotPriceDKK r = Some p ->
     (nth (S lo) vs (nth lo vs 0) < p)%Q ->
     In r (high_prices_dkk_with interpolate df)) /\
  (forall r r' p p', In r (high_prices_dkk_with interpolate df) -> In r' df ->
     SpotPriceDKK r = Some p -> SpotPriceDKK r' = Some p' -> (p <= p')%Q ->
     In r' (high_prices_dkk_with interpolate df)).
Proof.
  intros vs lo. unfold high_prices_dkk_with.
  destruct (quantile_with interpolate (95 # 100) (List.map SpotPriceDKK df)) as [t|] eqn:Hq.
  - destruct (quantile_with_neighbours df t Hq) as (_ & Hlo & Hhi).
    fold vs in Hlo, Hhi. fold lo in Hlo, Hhi.
    split; [|split].
    + intros r Hin. apply filter_In in Hin as [Hin Hflag]. split; [exact Hin|].
      destruct (SpotPriceDKK r) as [p|]; [|discriminate].
      exists p. split; [reflexivity|]. apply Qltb_lt in Hflag. lra.
    + intros r p Hin Hp Hlt. apply filter_In. split; [exact Hin|].
      rewrite Hp. apply Qltb_lt. lra.
    + intros r r' p p' Hin Hin' Hp Hp' Hle.
      apply filter_In in Hin as [_ Hflag]. rewrite Hp in Hflag. apply Qltb_lt in Hflag.
      apply filter_In. split; [exact Hin'|]. rewrite Hp'. apply Qltb_lt. lra.
  - pose proof (quantile_with_None df Hq) as Hnone.
    split; [|split].
    + intros r Hin. apply filter_In in Hin as [_ Hflag].
      destruct (SpotPriceDKK r); discriminate.
    + intros r p Hin Hp _. exfalso. exact (Hnone r p Hin Hp).
    + intros r r' p p' Hin. apply filter_In in Hin as [_ Hflag].
      destruct (SpotPriceDKK r); discriminate.
Qed.

End GlobalThreshold.

Section GlobalThresholdExample.
Import Frame MLPipeline DataQuality.

(** On the two rows of [price_spike_counterexample], with the exact
    interpolation. *)
Lemma high_price_events_global_threshold_witness :
  let df := Samples.two_area_prices in
  let vs := sorted_prices df in
  let lo := quantile_position (length vs) in
  (forall r, In r (high_prices_dkk_with linear df) ->
     In r df /\ exists p, SpotPriceDKK r = Some p /\ (nth lo vs 0 < p)%Q) /\
  (forall r p, In r df -> SpotPriceDKK r = Some p ->
     (nth (S lo) vs (nth lo vs 0) < p)%Q ->
     In r (high_prices_dkk_with linear df)) /\
  (forall r r' p p', In r (high_prices_dkk_with linear df) -> In r' df ->
     SpotPriceDKK r = Some p -> SpotPriceDKK r' = Some p' -> (p <= p')%Q ->
     In r' (high_prices_dkk_with linear df)).
Proof.
  apply (high_price_events_global_threshold linear linear_stays_between
           Samples.two_area_prices).
Defined.
End GlobalThresholdExample.

(* --------------------------------------------------------------------- *)
(** ** The gap analysis of the CO2 frame                                  *)
(* --------------------------------------------------------------------- *)

Section GapFacts.
Import Frame MLPipeline DataQuality.

Lemma Zleb_total (a b : Z) : (a <=? b)%Z = true \/ (b <=? a)%Z = true.
Proof. destruct (Z.leb_spec a b); [auto|right; apply Z.leb_le; lia]. Qed.

Lemma sort_by_Zle_StronglySorted (l : list Z) : StronglySorted Z.le (sort_by Z.leb l).
Proof.
  apply Sorted_StronglySorted; [intros x y z; apply Z.le_trans|].
  pose proof (sort_by_Sorted Z.leb l Zleb_total) as Hs.
  induction Hs as [|x l' Hs IH Hhd]; constructor; [exact IH|].
  destruct Hhd as [|y l'' Hxy]; constructor. apply Z.leb_le, Hxy.
Qed.

(** On sorted timestamps: no difference above the interval exactly when
    every timestamp is the latest or has a later one within the interval. *)
Lemma diff_no_gap (ts : list Z) :
  StronglySorted Z.le ts ->
  List.filter (fun d => expected_interval <? d)%Z (diff ts) = [] <->
  forall t, In t ts ->
    (forall u, In u ts -> u <= t)%Z \/
    exists u, In u ts /\ (t < u <= t + expected_interval)%Z.
Proof.
  unfold expected_interval.
  induction ts as [|a [|b rest] IH]; intros Hs.
  - simpl. split; [intros _ t []|reflexivity].
  - simpl. split; [|reflexivity]. intros _ t [<-|[]]. left. intros u [<-|[]]. lia.
  - inversion Hs as [|? ? Hs' Hall]; subst.
    rewrite List.Forall_forall in Hall.
    specialize (IH Hs').
    change (diff (a :: b :: rest)) with ((b - a)%Z :: diff (b :: rest)).
    cbn [List.filter]. split.
    + intros Hf. destruct (Z.ltb_spec 300 (b - a)) as [Hlt|Hge]; [discriminate|].
      pose proof (proj1 IH Hf) as Hf'. clear Hf. rename Hf' into Hf. intros t [<-|Ht].
      * destruct (Z.eq_dec a b) as [->|Hne].
        -- destruct (Hf b (or_introl eq_refl)) as [Hmax|(u & Hu & Hr)].
           ++ left. intros u [<-|Hu]; [lia|apply Hmax, Hu].
           ++ right. exists u. split; [right; exact Hu|exact Hr].
        -- right. exists b. split; [right; left; reflexivity|].
           specialize (Hall b (or_introl eq_refl)). lia.
      * destruct (Hf t Ht) as [Hmax|(u & Hu & Hr)].
        -- left. intros u [<-|Hu]; [apply Hall, Ht|apply Hmax, Hu].
        -- right. exists u. split; [right; exact Hu|exact Hr].
    + intros Hcov.
      assert (Hba : (b - a <= 300)%Z).
      { destruct (Hcov a (or_introl eq_refl)) as [Hmax|(u & [<-|Hu] & Hr)].
        - specialize (Hmax b (or_intror (or_introl eq_refl))). lia.
        - lia.
        - inversion Hs' as [|? ? _ Hall']; subst.
          rewrite List.Forall_forall in Hall'.
          destruct Hu as [<-|Hu]; [lia|]. specialize (Hall' u Hu). lia. }
      destruct (Z.ltb_spec 300 (b - a)) as [Hlt|_]; [lia|].
      apply (proj2 IH). intros t Ht.
      destruct (Hcov t (or_intror Ht)) as [Hmax|(u & [<-|Hu] & Hr)].
      * left. intros u Hu. apply Hmax. right. exact Hu.
      * specialize (Hall t Ht). lia.
      * right. exists u. auto.
Qed.

(** X11: the gap analysis of the CO2 frame reports no gap exactly when
    every row is among the latest or is followed, within 5 minutes, by a
    later row of any price area: the rows of all areas are sorted
    together, so the samples of one area cover a hole in another. *)
Theorem no_gap_reported (df : list co2_record) :
  gaps df = [] <->
  forall r, In r df ->
    (forall r', In r' df -> Minutes5UTC r' <= Minutes5UTC r)%Z \/
    exists r', In r' df /\
               (Minutes5UTC r < Minutes5UTC r' <= Minutes5UTC r + expected_interval)%Z.
Proof.
  unfold gaps.
  rewrite (diff_no_gap _ (sort_by_Zle_StronglySorted _)).
  assert (Hin : forall t, In t (sort_by Z.leb (List.map Minutes5UTC df))
                          <-> exists r, In r df /\ Minutes5UTC r = t).
  { intros t. split.
    - intros H. apply (Permutation_in _ (sort_by_perm Z.leb _)) in H.
      apply in_map_iff in H as (r & Hr & Hi). eauto.
    - intros (r & Hi & Hr).
      apply (Permutation_in _ (Permutation_sym (sort_by_perm Z.leb _))).
      apply in_map_iff. eauto. }
  split.
  - intros H r Hr.
    destruct (H (Minutes5UTC r)) as [Hmax|(u & Hu & Hrange)].
    + apply Hin. eauto.
    + left. intros r' Hr'. apply Hmax, Hin. eauto.
    + right. apply Hin in Hu as (r' & Hr' & <-). eauto.
  - intros H t Ht. apply Hin in Ht as (r & Hr & <-).
    destruct (H r Hr) as [Hmax|(r' & Hr' & Hrange)].
    + left. intros u Hu. apply Hin in Hu as (r' & Hr' & <-). apply Hmax, Hr'.
    + right. exists (Minutes5UTC r'). split; [apply Hin; eauto|exact Hrange].
Qed.

End GapFacts.

(* --------------------------------------------------------------------- *)
(** ** The renewable class of a row                                       *)
(* --------------------------------------------------------------------- *)

Section ClassFacts.
Import Features.
Local Open Scope float_scope.

Lemma eqb_zero (x : float) :
  (x =? 0) = true <-> exists s, Prim2SF x = S754_zero s.
Proof.
  rewrite FloatAxioms.eqb_spec.
  replace (Prim2SF 0) with (S754_zero false) by reflexivity.
  destruct (Prim2SF x) as [s|s| |s m e]; simpl.
  - split; eauto.
  - split; [destruct s; discriminate|intros [? ?]; discriminate].
  - split; [discriminate|intros [? ?]; discriminate].
  - split; [destruct s; discriminate|intros [? ?]; discriminate].
Qed.

Lemma cut_zero_or_infinite (x : float) :
  (exists s, Prim2SF x = S754_zero s \/ Prim2SF x = S754_infinity s) -> cut x = None.
Proof.
  intros [s Hx]. unfold cut. rewrite is_nan_spec, !leb_spec.
  replace (Prim2SF 0) with (S754_zero false) by reflexivity.
  replace (Prim2SF 25) with (S754_finite false 7036874417766400 (-48))
    by (vm_compute; reflexivity).
  replace (Prim2SF 50) with (S754_finite false 7036874417766400 (-47))
    by (vm_compute; reflexivity).
  replace (Prim2SF 75) with (S754_finite false 5277655813324800 (-46))
    by (vm_compute; reflexivity).
  replace (Prim2SF 100) with (S754_finite false 7036874417766400 (-46))
    by (vm_compute; reflexivity).
  destruct Hx as [-> | ->]; destruct s; reflexivity.
Qed.

Lemma renewable_percentage_zero_renewable (r : energy_row) (s : bool) :
  Prim2SF (total_renewable_mwh r) = S754_zero s ->
  exists s', Prim2SF (renewable_percentage r) = S754_zero s'.
Proof.
  intros Ht. unfold renewable_percentage, fillna.
  set (q := total_renewable_mwh r / consumption_mwh r * 100).
  assert (Hq : Prim2SF q = S754_nan \/ exists s', Prim2SF q = S754_zero s').
  { unfold q. rewrite mul_spec, div_spec, Ht.
    replace (Prim2SF 100) with (S754_finite false 7036874417766400 (-46))
      by (vm_compute; reflexivity).
    destruct (Prim2SF (consumption_mwh r)) as [sc|sc| |sc m e]; simpl; eauto. }
  rewrite is_nan_spec. destruct Hq as [Hq|[s' Hq]]; rewrite Hq.
  - exists false. reflexivity.
  - exists s'. exact Hq.
Qed.

(** X12: a row without renewable production, and a row with a
    consumption of zero, get no renewable class: the percentage is 0 or
    an infinity (see C1), and the bins start above 0 and end at 100. *)
Theorem unlabelled_rows (r : energy_row) :
  (total_renewable_mwh r =? 0) = true \/ (consumption_mwh r =? 0) = true ->
  renewable_class r = None.
Proof.
  intros [H|H]; apply eqb_zero in H as [s Hs]; apply cut_zero_or_infinite.
  - destruct (renewable_percentage_zero_renewable r s Hs) as [s' Hs']. eauto.
  - rewrite (renewable_percentage_zero_consumption r s Hs).
    destruct (Prim2SF (total_renewable_mwh r)) as [st|st| |st m e]; eauto.
Qed.

End ClassFacts.

(* --------------------------------------------------------------------- *)
(** ** Feature engineering: lags and dropna                               *)
(* --------------------------------------------------------------------- *)

Section EngineeringFacts.
Import Frame MLPipeline Engineering.

Lemma with_features_In (before rows : list merged_row) (f : feature_row) :
  In f (with_features before rows) ->
  exists l1 l2, rows = l1 ++ merged f :: l2 /\ f = features_of (before ++ l1) (merged f).
Proof.
  revert before. induction rows as [|r rows IH]; intros before; simpl; [intros []|].
  intros [<-|Hin].
  - exists [], rows. rewrite app_nil_r. split; reflexivity.
  - destruct (IH _ Hin) as (l1 & l2 & -> & Hf).
    exists (r :: l1), l2. split; [reflexivity|].
    rewrite <- app_assoc in Hf. exact Hf.
Qed.

Lemma shift_Some (k : nat) (col : merged_row -> cell) (h : list merged_row) (v : Q) :
  shift k col h = Some v -> (k < length h)%nat.
Proof.
  unfold shift. destruct (nth_error h k) eqn:E; [|discriminate].
  intros _. apply nth_error_Some. congruence.
Qed.

(** A row that survives [dropna] has 24 rows of its price area before it. *)
Lemma kept_row_history (merged_data : list merged_row) (f : feature_row) :
  In f (_engineer_features merged_data) ->
  (24 < length (rows_of_area (PriceArea (merged f)) merged_data))%nat.
Proof.
  unfold _engineer_features. intros Hin. apply filter_In in Hin as [Hin Hkeep].
  apply with_features_In in Hin as (l1 & l2 & Hsplit & Hf).
  apply negb_true_iff, negb_false_iff in Hkeep. unfold has_nan, nullable_columns in Hkeep.
  cbn [forallb] in Hkeep.
  repeat (apply andb_true_iff in Hkeep as [? Hkeep]).
  match goal with H : bool_decide (is_Some (co2_emission_lag24 f)) = true |- _ =>
    apply bool_decide_eq_true in H as [v Hv] end.
  rewrite Hf in Hv. cbn [co2_emission_lag24 features_of] in Hv.
  apply shift_Some in Hv. unfold group_history in Hv.
  cbn [length] in Hv. rewrite length_rev in Hv. simpl in Hv.
  unfold rows_of_area.
  rewrite <- (filter_length_perm _ _ _ (sort_by_perm area_time_leb merged_data)), Hsplit.
  rewrite List.filter_app, length_app. cbn [List.filter].
  rewrite bool_decide_eq_true_2 by reflexivity. simpl. lia.
Qed.

(** X13: the lag of 24 rows and the final [dropna] drop the first 24
    rows of every price area: when no price area has more than 24 merged
    rows (a day of hourly data), feature engineering leaves no row at
    all. *)
Theorem short_history_leaves_nothing (merged_data : list merged_row) :
  (forall area, length (rows_of_area area merged_data) <= 24)%nat ->
  _engineer_features merged_data = [].
Proof.
  intros Hshort.
  destruct (_engineer_features merged_data) as [|f l] eqn:E; [reflexivity|].
  assert (Hin : In f (_engineer_features merged_data)) by (rewrite E; left; reflexivity).
  apply kept_row_history in Hin. specialize (Hshort (PriceArea (merged f))). lia.
Qed.

End EngineeringFacts.

(* --------------------------------------------------------------------- *)
(** ** The merged dataset: keys and coverage                              *)
(* --------------------------------------------------------------------- *)

Section MergeFacts.
Import Frame MLPipeline.

(** With unique keys on the right, a left row finds at most one partner. *)
Lemma filter_key_unique {B} (key_r : B -> gkey) (k : gkey) (right : list B) :
  List.NoDup (List.map key_r right) ->
  (length (List.filter (fun b => bool_decide (k = key_r b)) right) <= 1)%nat.
Proof.
  induction right as [|b right IH]; simpl; [lia|].
  intros Hnd. inversion Hnd as [|? ? Hnotin Hnd']; subst.
  destruct (bool_decide (k = key_r b)) eqn:E; [|apply IH, Hnd'].
  apply bool_decide_eq_true in E. subst k.
  assert (Hnil : List.filter (fun b' => bool_decide (key_r b = key_r b')) right = []).
  { destruct (List.filter _ right) as [|b' l] eqn:Hf; [reflexivity|].
    assert (Hin : In b' (b' :: l)) by (left; reflexivity).
    rewrite <- Hf in Hin. apply filter_In in Hin as [Hin Hk].
    apply bool_decide_eq_true in Hk. exfalso. apply Hnotin.
    rewrite Hk. apply in_map, Hin. }
  rewrite Hnil. simpl. lia.
Qed.

Lemma merge_inner_NoDup {A B C} (key_l : A -> gkey) (key_r : B -> gkey)
    (key_c : C -> gkey) (mk : A -> B -> C) (left : list A) (right : list B) :
  (forall a b, key_c (mk a b) = key_l a) ->
  List.NoDup (List.map key_l left) ->
  List.NoDup (List.map key_r right) ->
  List.NoDup (List.map key_c (merge_inner key_l key_r mk left right)).
Proof.
  intros Hkey Hl Hr. unfold merge_inner.
  induction left as [|a left IH]; simpl; [constructor|].
  inversion Hl as [|? ? Hnotin Hl']; subst.
  rewrite List.map_app. apply List.NoDup_app.
  - pose proof (filter_key_unique key_r (key_l a) right Hr) as Hlen.
    destruct (List.filter _ right) as [|b [|b' l]]; simpl in *; try lia.
    + constructor.
    + constructor; [intros []|constructor].
  - apply IH, Hl'.
  - intros k Hk1 Hk2.
    apply in_map_iff in Hk1 as (c & <- & Hc).
    apply in_map_iff in Hc as (b & <- & _).
    apply in_map_iff in Hk2 as (c' & Hkc & Hc').
    apply (merge_inner_In key_l key_r mk left right) in Hc'
      as (a' & b' & Ha' & _ & _ & ->).
    rewrite !Hkey in Hkc. apply Hnotin. rewrite <- Hkc. apply in_map, Ha'.
Qed.

Lemma filter_map_NoDup {A K} (key : A -> K) (f : A -> bool) (l : list A) :
  List.NoDup (List.map key l) -> List.NoDup (List.map key (List.filter f l)).
Proof.
  induction l as [|a l IH]; simpl; [constructor|].
  intros Hnd. inversion Hnd as [|? ? Hnotin Hnd']; subst.
  destruct (f a); [|apply IH, Hnd']. simpl. constructor; [|apply IH, Hnd'].
  intros Hin. apply Hnotin. apply in_map_iff in Hin as (x & Hx & Hin).
  apply filter_In in Hin as [Hin _]. rewrite <- Hx. apply in_map, Hin.
Qed.

(** X14: when the production frame and the price frame hold each
    (hour, price area) once, so does the merged dataset: no hour of an
    area is duplicated by the rollup and the two merges. *)
Theorem merged_keys_are_unique (co2_data : list co2_record)
    (renewable_data : list renewable_record) (price_data : list price_record) :
  List.NoDup (List.map ren_key renewable_data) ->
  List.NoDup (List.map price_key price_data) ->
  List.NoDup (List.map merged_key
                (_create_merged_dataset co2_data renewable_data price_data)).
Proof.
  intros Hr Hp. unfold _create_merged_dataset.
  apply merge_inner_NoDup.
  - reflexivity.
  - apply merge_inner_NoDup; [reflexivity|apply co2_agg_NoDup|exact Hr].
  - apply filter_map_NoDup, Hp.
Qed.



End MergeFacts.

(* --------------------------------------------------------------------- *)
(** ** The choice of the best model                                       *)
(* --------------------------------------------------------------------- *)

Section TrainingFacts.
Import Training.
Local Open Scope float_scope.

Lemma SFltb_irrefl (x : spec_float) : SFltb x x = false.
Proof.
  unfold SFltb, SFcompare. destruct x as [s|s| |s m e]; try reflexivity.
  - destruct s; reflexivity.
  - rewrite Z.compare_refl, Pos.compare_cont_refl. destruct s; reflexivity.
Qed.

Lemma SFltb_trans (x y z : spec_float) :
  SFltb x y = true -> SFltb y z = true -> SFltb x z = true.
Proof.
  unfold SFltb, SFcompare.
  destruct x as [[]|[]| |[] m1 e1], y as [[]|[]| |[] m2 e2], z as [[]|[]| |[] m3 e3];
    try discriminate; try reflexivity;
    change (Pos.compare_cont Eq) with Pos.compare;
    destruct (Z.compare_spec e1 e2), (Z.compare_spec e2 e3), (Z.compare_spec e1 e3);
    try discriminate; try reflexivity; try lia; subst;
    destruct (Pos.compare_spec m1 m2), (Pos.compare_spec m2 m3), (Pos.compare_spec m1 m3);
    simpl; try discriminate; try reflexivity; try lia.
Qed.

Lemma ltb_irrefl (x : float) : (x <? x) = false.
Proof. rewrite ltb_spec. apply SFltb_irrefl. Qed.

Lemma ltb_trans (x y z : float) : (x <? y) = true -> (y <? z) = true -> (x <? z) = true.
Proof. rewrite !ltb_spec. apply SFltb_trans. Qed.

(** What the loop holds after any number of models: the initial pair or
    a model seen, with a score no model seen is strictly below. *)
Lemma track_best_invariant (results : list (string * float)) (init : option string * float) :
  let best := fold_left track_best results init in
  (best = init \/ exists name, best.1 = Some name /\ In (name, best.2) results) /\
  ((best.2 <? init.2) = true \/ best = init) /\
  (forall m, In m results -> (m.2 <? best.2) = false).
Proof.
  revert init. induction results as [|m results IH]; intros init; simpl.
  - split; [left; reflexivity|]. split; [right; reflexivity|intros m []].
  - specialize (IH (track_best init m)). cbv zeta in IH.
    set (best := fold_left track_best results (track_best init m)) in *.
    destruct IH as (Hfrom & Hle & Hmin).
    unfold track_best in Hfrom, Hle.
    destruct (m.2 <? init.2) eqn:Em; simpl in *.
    + split; [|split].
      * right. destruct Hfrom as [->|(name & Hn & Hin)].
        -- exists m.1. simpl. split; [reflexivity|]. left. destruct m; reflexivity.
        -- exists name. auto.
      * left. destruct Hle as [Hlt| ->]; [|exact Em].
        eapply ltb_trans; eassumption.
      * intros m' [<-|Hin]; [|apply Hmin, Hin].
        destruct Hle as [Hlt| ->]; [|apply ltb_irrefl].
        destruct (m.2 <? best.2) eqn:E; [|reflexivity].
        pose proof (ltb_trans _ _ _ Hlt E) as Habs. rewrite ltb_irrefl in Habs.
        discriminate.
    + split; [|split].
      * destruct Hfrom as [->|(name & Hn & Hin)]; [left; reflexivity|].
        right. exists name. auto.
      * exact Hle.
      * intros m' [<-|Hin]; [|apply Hmin, Hin].
        destruct Hle as [Hlt| ->]; [|exact Em].
        destruct (m.2 <? best.2) eqn:E; [|reflexivity].
        rewrite (ltb_trans _ _ _ E Hlt) in Em. discriminate.
Qed.

(** X16: the model [train_models] keeps for a task is one of the task's
    models, its RMSE is below infinity and no model of the task has a
    strictly lower RMSE.  When no RMSE is below infinity (each is
    infinite or NaN) no model is kept, and the lookup of the best model
    that follows fails. *)
Theorem best_model_is_minimal (task_results : list (string * float)) :
  match best_model task_results with
  | (Some name, best_score) =>
      In (name, best_score) task_results /\
      (best_score <? infinity) = true /\
      (forall m, In m task_results -> (m.2 <? best_score) = false)
  | (None, _) => forall m, In m task_results -> (m.2 <? infinity) = false
  end.
Proof.
  unfold best_model.
  destruct (track_best_invariant task_results (None, infinity)) as (Hfrom & Hle & Hmin).
  destruct (fold_left track_best task_results (None, infinity)) as [[name|] score];
    simpl in *.
  - destruct Hfrom as [Habs|(name' & [= <-] & Hin)]; [discriminate|].
    split; [exact Hin|]. split; [|exact Hmin].
    destruct Hle as [Hlt|Habs]; [exact Hlt|discriminate].
  - destruct Hle as [Hlt|[= ->]]; [|exact Hmin].
    destruct Hfrom as [[= ->]|(name' & Habs & _)]; [|discriminate].
    rewrite ltb_irrefl in Hlt. discriminate.
Qed.

(** X17: [min] over a non-empty dict of results returns a model of the
    dict that no model has a strictly lower RMSE than. *)
Theorem best_model_name_is_minimal (m0 : string * float) (results : list (string * float)) :
  exists name score,
    best_model_name (m0 :: results) = Some name /\
    In (name, score) (m0 :: results) /\
    (forall m, In m (m0 :: results) -> (m.2 <? score) = false).
Proof.
  unfold best_model_name.
  destruct (track_best_invariant results (Some m0.1, m0.2)) as (Hfrom & Hle & Hmin).
  destruct (fold_left track_best results (Some m0.1, m0.2)) as [best score].
  cbn [fst snd] in *.
  destruct Hfrom as [[= -> ->]|(name & -> & Hin)].
  - exists m0.1, m0.2. split; [reflexivity|]. split; [left; destruct m0; reflexivity|].
    intros m [<-|Hm]; [apply ltb_irrefl|apply Hmin, Hm].
  - exists name, score. split; [reflexivity|]. split; [right; exact Hin|].
    intros m [<-|Hm]; [|apply Hmin, Hm].
    destruct Hle as [Hlt|[= _ ->]]; [|apply ltb_irrefl].
    destruct (m0.2 <? score) eqn:E; [|reflexivity].
    pose proof (ltb_trans _ _ _ Hlt E) as Habs. rewrite ltb_irrefl in Habs. discriminate.
Qed.

End TrainingFacts.

(* --------------------------------------------------------------------- *)
(** ** The time series features of the advanced pipeline                  *)
(* --------------------------------------------------------------------- *)

Section AdvancedFacts.
Import Frame Advanced.

Variable std : list Q -> cell.

Lemma early_row_has_nan (before : list data_row) (r : data_row) :
  (length before < 168)%nat -> no_nan (time_series_features_of std before r) = false.
Proof.
  intros Hlen. unfold no_nan, columns.
  rewrite !forallb_app. 
  assert (Hlag : forallb (fun c : cell => bool_decide (is_Some c))
                   (lag168 (time_series_features_of std before r)) = false).
  { cbn [lag168 time_series_features_of targets List.map forallb]. unfold frame_shift.
    assert (Hn : nth_error (r :: rev before) 168 = None)
      by (apply nth_error_None; cbn [length]; rewrite length_rev; lia).
    rewrite Hn. reflexivity. }
  rewrite Hlag. rewrite !andb_false_r. reflexivity.
Qed.

Lemma with_features_length (before rows : list data_row) :
  length (with_time_series_features std before rows) = length rows.
Proof.
  revert before. induction rows as [|r rows IH]; intros before; simpl; [reflexivity|].
  rewrite IH. reflexivity.
Qed.

Lemma kept_rows_bound (before rows : list data_row) :
  (length (List.filter no_nan (with_time_series_features std before rows))
   <= length rows - (168 - length before))%nat.
Proof.
  revert before. induction rows as [|r rows IH]; intros before; simpl; [lia|].
  specialize (IH (before ++ [r])). rewrite length_app in IH. simpl in IH.
  destruct (Nat.lt_ge_cases (length before) 168) as [Hlt|Hge].
  - rewrite (early_row_has_nan before r Hlt). lia.
  - pose proof (filter_length_le no_nan (with_time_series_features std (before ++ [r]) rows)) as Hf.
    rewrite with_features_length in Hf.
    destruct (no_nan (time_series_features_of std before r)); simpl; lia.
Qed.

(** X18: the lag of 168 rows and the final [dropna] drop the first 168
    rows of the frame, whatever they hold: the new frame has at most the
    number of rows of the frame less 168, and none for a frame of a week
    or less. *)
Theorem first_week_is_dropped (df : list data_row) :
  (length (create_time_series_features std df) <= length df - 168)%nat.
Proof.
  unfold create_time_series_features.
  pose proof (kept_rows_bound [] df) as H. simpl in H. lia.
Qed.

End AdvancedFacts.

(* --------------------------------------------------------------------- *)
(** ** The further properties on concrete inputs                          *)
(* --------------------------------------------------------------------- *)

Section FurtherExamples.
Import Py Frame MLPipeline Extraction Warehouse DataQuality Engineering.
Local Open Scope string_scope.

Lemma extract_dataset_stores_records_witness :
  exists w',
    extract_dataset Samples.healthy_server "raw_data" "CO2Emis" "co2_emissions_raw.csv"
      "2024-05-01" "2024-05-02" Samples.fresh_world = (Ok [Samples.co2_row], w') /\
    files w' !! path_join "raw_data" "co2_emissions_raw.csv"
      = Some (CsvFile [Samples.co2_row]) /\
    (forall p, p <> path_join "raw_data" "co2_emissions_raw.csv" -> p <> log_file ->
               files w' !! p = files Samples.fresh_world !! p) /\
    log w' = (log Samples.fresh_world
              ++ [ (INFO, Extracting "CO2Emis" "2024-05-01" "2024-05-02");
                   (INFO, Saved 1 (path_join "raw_data" "co2_emissions_raw.csv")) ])%list.
Proof.
  apply (extract_dataset_stores_records Samples.healthy_server "raw_data" "CO2Emis"
           "co2_emissions_raw.csv" "2024-05-01" "2024-05-02" Samples.fresh_world
           200 None Samples.co2_row []); reflexivity.
Defined.

Lemma extract_dataset_without_records_witness :
  extract_dataset Samples.empty_server "raw_data" "CO2Emis" "co2_emissions_raw.csv"
    "2024-05-01" "2024-05-02" Samples.fresh_world
  = (Ok [], {| requests := (requests Samples.fresh_world
                            ++ [dataset_request "CO2Emis" "2024-05-01" "2024-05-02"])%list;
               files := files Samples.fresh_world;
               log := (log Samples.fresh_world
                       ++ [ (INFO, Extracting "CO2Emis" "2024-05-01" "2024-05-02");
                            (WARNING, No_data_found "CO2Emis") ])%list |}).
Proof.
  apply (extract_dataset_without_records Samples.empty_server "raw_data" "CO2Emis"
           "co2_emissions_raw.csv" "2024-05-01" "2024-05-02" Samples.fresh_world
           200 None (Some [])); [reflexivity|reflexivity|right; reflexivity].
Defined.

Lemma run_full_extraction_frame_witness :
  let out := run_full_extraction Samples.healthy_server "2024-06-01T06:00:00" "raw_data"
               "2024-05-01" "2024-05-02" Samples.fresh_world in
  files out.2 !! "raw_data/notes.txt" = files Samples.fresh_world !! "raw_data/notes.txt" /\
  exists lines, log out.2 = (log Samples.fresh_world
                             ++ (INFO, Starting_full_extraction) :: lines)%list.
Proof.
  apply (run_full_extraction_frame Samples.healthy_server "2024-06-01T06:00:00" "raw_data"
           "2024-05-01" "2024-05-02" Samples.fresh_world "raw_data/notes.txt").
  - vm_compute. intros H. repeat (destruct H as [H|H]; [discriminate H|]). exact H.
  - discriminate.
Defined.

Lemma failed_dataset_counts_zero_witness :
  exists s w',
    run_full_extraction Samples.co2_down_server "2024-06-01T06:00:00" "raw_data"
      "2024-05-01" "2024-05-02" Samples.fresh_world = (Ok s, w') /\
    n_co2_emissions s = O /\
    total_records s = (n_electricity_balance s + n_renewable_energy s
                       + n_electricity_prices s)%nat.
Proof.
  apply (failed_dataset_counts_zero Samples.co2_down_server "2024-06-01T06:00:00"
           "raw_data" "2024-05-01" "2024-05-02" Samples.fresh_world).
  exact I.
Defined.

Lemma earlier_load_stays_committed_witness :
  load_and_transform Samples.counting_sql_function Samples.counting_etl_function
    (fun _ => None) (fun _ => true) "raw_data" (committed_as 0%Z)
  = (Raise (DatabaseError "invalid input syntax"), committed_as 3%Z).
Proof.
  apply (earlier_load_stays_committed Samples.counting_sql_function
           Samples.counting_etl_function (fun _ => None) (fun _ => true) "raw_data"
           {| committed := 0%Z; pending := 0%Z |} 3%Z 4%Z 3%Z "invalid input syntax");
    reflexivity.
Defined.

Lemma lowest_price_is_never_high_witness :
  ~ In (Samples.price_at Samples.h0 "DK2" (15 # 2) (1 # 1))
       (high_prices_dkk Samples.two_area_prices).
Proof.
  apply (lowest_price_is_never_high Samples.two_area_prices
           (Samples.price_at Samples.h0 "DK2" (15 # 2) (1 # 1)) (15 # 2));
    [reflexivity|].
  intros r' p' [<-|[<-|[]]] [= <-]; vm_compute; discriminate.
Defined.

Lemma unlabelled_rows_witness : Features.renewable_class Samples.calm_dark_hour = None.
Proof. apply (unlabelled_rows Samples.calm_dark_hour). left. vm_compute. reflexivity. Defined.

Lemma short_history_leaves_nothing_witness :
  _engineer_features [Samples.one_merged_row] = [].
Proof.
  apply (short_history_leaves_nothing [Samples.one_merged_row]).
  intros area. unfold rows_of_area. cbn [List.filter].
  destruct (bool_decide _); simpl; lia.
Defined.

Lemma merged_keys_are_unique_witness :
  List.NoDup (List.map merged_key
                (_create_merged_dataset Samples.full_hour Samples.renewable_two_hours
                   Samples.prices_two_hours)).
Proof.
  apply (merged_keys_are_unique Samples.full_hour Samples.renewable_two_hours
           Samples.prices_two_hours);
    (apply List.NoDup_cons;
     [intros [H|[]]; vm_compute in H; discriminate H
     |apply List.NoDup_cons; [intros []|apply List.NoDup_nil]]).
Defined.


Lemma merged_rows_are_danish_witness :
  let row := merge_price
               (merge_renewable
                  {| co2_datetime := Samples.h0; co2_area := "DK1";
                     co2_emission := Some (1506 # 12) |}
                  (Samples.production_at Samples.h0 "DK1"))
               (Samples.price_at Samples.h0 "DK1" (600 # 1) (80 # 1)) in
  PriceArea row = "DK1" \/ PriceArea row = "DK2".
Proof.
  apply (merged_rows_are_danish Samples.full_hour Samples.renewable_two_hours
           Samples.prices_two_hours).
  vm_compute. left. reflexivity.
Defined.

Lemma join_streams_complete_witness :
  present_in merged_key (Samples.h0, "DK1")
    (_create_merged_dataset Samples.full_hour Samples.renewable_two_hours
       Samples.prices_two_hours).
Proof.
  apply (join_streams_complete Samples.full_hour Samples.renewable_two_hours
           Samples.prices_two_hours (Samples.h0, "DK1")).
  - reflexivity.
  - eexists. split; [vm_compute; left; reflexivity|reflexivity].
  - eexists. split; [left; reflexivity|reflexivity].
  - eexists. split; [left; reflexivity|reflexivity].
Defined.

End FurtherExamples.

(* --------------------------------------------------------------------- *)
(** ** The completeness the business insights report                      *)
(* --------------------------------------------------------------------- *)

Section CompletenessFacts.
Import Frame MLPipeline Engineering.

Lemma kept_row_isnull (f : feature_row) :
  has_nan f = false ->
  List.filter (fun c : cell => bool_decide (c = None)) (nullable_columns f) = [].
Proof.
  unfold has_nan. intros H. apply negb_false_iff in H.
  rewrite forallb_forall in H.
  induction (nullable_columns f) as [|c l IH]; simpl; [reflexivity|].
  assert (Hc : is_Some c)
    by (eapply bool_decide_eq_true_1, H; left; reflexivity).
  destruct Hc as [v ->]. rewrite bool_decide_eq_false_2 by discriminate.
  apply IH. intros x Hx. apply H. right. exact Hx.
Qed.

Lemma engineered_isnull_sum (merged_data : list merged_row) :
  isnull_sum (_engineer_features merged_data) = O.
Proof.
  unfold isnull_sum, _engineer_features.
  generalize (with_features [] (sort_by area_time_leb merged_data)). intros l.
  unfold list_sum. induction l as [|f l IH]; [reflexivity|].
  cbn [List.filter]. destruct (has_nan f) eqn:E; cbn [negb]; [exact IH|].
  cbn [List.map fold_right]. rewrite (kept_row_isnull f E), IH. reflexivity.
Qed.

(** X19: the frame feature engineering leaves holds no NaN, so the
    completeness the business insights report for it is 100 whatever the
    raw data held: the rows with missing values were dropped, not
    counted. *)
Theorem completeness_is_always_100 (merged_data : list merged_row) :
  isnull_sum (_engineer_features merged_data) = O /\
  (_engineer_features merged_data <> [] ->
   exists c, data_completeness (_engineer_features merged_data) = Some c /\ (c == 100)%Q).
Proof.
  split; [apply engineered_isnull_sum|]. intros Hne.
  unfold data_completeness. rewrite engineered_isnull_sum.
  destruct (_engineer_features merged_data) as [|f l]; [congruence|].
  unfold frame_size. cbn [length Nat.mul Nat.add].
  eexists. split; [reflexivity|].
  change (inject_Z (Z.of_nat 0)) with 0%Q. unfold Qdiv. rewrite Qmult_0_l. reflexivity.
Qed.

(** 25 hours of one area: the row of the 25th hour is the one left. *)
Lemma completeness_is_always_100_witness :
  List.map (fun f => datetime (merged f)) (_engineer_features Samples.twenty_five_hours)
    = [(Samples.h0 + 24 * 3600)%Z] /\
  exists c, data_completeness (_engineer_features Samples.twenty_five_hours) = Some c /\ (c == 100)%Q.
Proof.
  split; [vm_compute; reflexivity|].
  apply (proj2 (completeness_is_always_100 Samples.twenty_five_hours)).
  intros H. apply (f_equal (@length _)) in H. vm_compute in H. discriminate H.
Defined.

End CompletenessFacts.
